(** * Authentication and admin routes of the sales-and-inventory server

    A shallow embedding of [src/server/routes.ts]: the login handler with
    its progressive lockout, and the two role-gated admin handlers.

    The handlers are written against the [storage] object of
    [server/storage.js] and the request schemas of [shared/schema.js].
    Neither file is part of the sources at hand, so the storage object is
    an interface here ([Storage]), with one in-memory implementation
    written from the specification ([MemStorage]) and one that is out of
    service ([DownStorage]); [bcrypt] and the login schema are interfaces
    too. *)

From stdpp Require Import gmap strings list fin_maps pretty.

Open Scope Z_scope.

(** ** JavaScript values and objects *)

(** The values found in the fields of the records the handlers send back.
    A [Date] is its number of milliseconds since the epoch. *)
Inductive jsval : Type :=
| JNull
| JNum (n : Z)
| JStr (s : string)
| JDate (ms : Z).

(** A plain object, as a finite map from property names to values. *)
Abbreviation jsobj := (gmap string jsval).

(** A value of a JSON body, as [express.json()] hands it to a handler.
    Numbers are the integers. *)
Inductive JsonValue : Type :=
| JsonNull
| JsonBool (b : bool)
| JsonNumber (n : Z)
| JsonString (s : string)
| JsonArray (items : list JsonValue)
| JsonObject (fields : list (string * JsonValue)).

(** A field of a body when it is truthy: [undefined], [null], [false],
    [0] and the empty string are falsy, every array and object is
    truthy. *)
Definition truthy_field (o : option JsonValue) : option JsonValue :=
  match o with
  | None | Some JsonNull | Some (JsonBool false) | Some (JsonNumber 0)
  | Some (JsonString "") => None
  | Some v => Some v
  end.

(** A value in a template literal: [String(v)]. *)
Fixpoint toString (v : JsonValue) : string :=
  match v with
  | JsonNull => "null"
  | JsonBool b => if b then "true" else "false"
  | JsonNumber n => pretty n
  | JsonString s => s
  | JsonArray items =>
    String.concat ","
      (List.map (λ item, match item with JsonNull => "" | _ => toString item end)
                items)
  | JsonObject _ => "[object Object]"
  end.

(** [String.prototype.toLowerCase] on the ASCII letters.  Strings are byte
    strings here; the only characters outside ASCII whose lower-case form
    is an ASCII letter is the Kelvin sign (to "k"), and none of the role
    names compared below ("admin", "staff", "supplier") contains a "k". *)
Definition lower_ascii (c : Ascii.ascii) : Ascii.ascii :=
  let n := Ascii.N_of_ascii c in
  if ((65 <=? n) && (n <=? 90))%N then Ascii.ascii_of_N (n + 32) else c.

Fixpoint toLowerCase (s : string) : string :=
  match s with
  | EmptyString => EmptyString
  | String c s' => String (lower_ascii c) (toLowerCase s')
  end.

(** [Array.prototype.includes] on an array of strings. *)
Fixpoint includes (l : list string) (x : string) : bool :=
  match l with
  | [] => false
  | y :: l' => String.eqb y x || includes l' x
  end.

(** [n || 0] on a number: [0] is the only falsy count. *)
Definition or_zero (n : nat) : nat :=
  match n with
  | O => O
  | S _ => n
  end.

(** [Math.ceil(x / d)] for an integer [x] and a positive integer [d].  For
    the millisecond differences of two dates the floating-point quotient
    is within a thousandth of the exact one, so its ceiling is the integer
    ceiling. *)
Definition ceil_div (x d : Z) : Z := - ((- x) / d).

(** ** Data model *)

Module User.
(** Modelled from the spec: the [User] type of [shared/schema.js], with the
    fields the specification lists. *)
Record t : Type := mk {
  id : Z;
  username : string;
  password : string;
  role : string;
  loginAttempts : nat;
  cooldownUntil : option Z;
}.

(** The record as the JavaScript object it is at run time. *)
Definition object (u : t) : jsobj :=
  {[ "id" := JNum (id u);
     "username" := JStr (username u);
     "password" := JStr (password u);
     "role" := JStr (role u);
     "loginAttempts" := JNum (Z.of_nat (loginAttempts u));
     "cooldownUntil" := match cooldownUntil u with
                        | Some d => JDate d
                        | None => JNull
                        end ]}.
End User.

Module Session.
(** Modelled from the spec: the [Session] type of [shared/schema.js]. *)
Record t : Type := mk {
  id : string;
  userId : Z;
}.
End Session.

(** ** Requests and responses *)

(** What the handlers read of a request: the cookies, as [cookie-parser]
    leaves them, and the JSON body, an object of JSON values (a field that
    is not there reads as [undefined]). *)
Record Request : Type := {
  cookies : gmap string string;
  body : gmap string JsonValue;
}.

(** What a handler reads from its surroundings while it serves one
    request: the clock at each of the three places the login handler reads
    it, and [process.env.NODE_ENV]. *)
Record Env : Type := {
  new_Date : Z;          (* [new Date()] in the cooldown test *)
  Date_now_remaining : Z; (* [Date.now()] in the remaining-seconds sum *)
  Date_now_lock : Z;      (* [Date.now()] when the lock is set *)
  NODE_ENV : option string;
}.

Record Cookie : Type := {
  cookie_name : string;
  cookie_value : string;
  httpOnly : bool;
  secure : bool;
  sameSite : string;
  maxAge : Z;
}.

(** The JSON bodies the handlers send. *)
Inductive Json : Type :=
| JMessage (message : string)
| JRemaining (message : string) (remainingSeconds : Z)
| JCooldown (message : string) (cooldownUntil : Z)
| JLogin (user : jsobj) (session : Session.t)
| JAccounts (accounts : list jsobj).

Record Response : Type := {
  status : nat;
  json : Json;
  cookie : option Cookie;
}.

(** [res.status(code).json(j)] and [res.json(j)]. *)
Definition res_status (code : nat) (j : Json) : Response :=
  {| status := code; json := j; cookie := None |}.

Definition res_json (j : Json) : Response := res_status 200 j.

(** [const { password, ...rest } = user]. *)
Definition omit_password (o : jsobj) : jsobj := delete "password" o.

(** ** Effects: a store that is read and written, and exceptions *)

Inductive exn : Type :=
| ZodError (issues : list string)
| StoreError (message : string).

Inductive outcome (A : Type) : Type :=
| Return (a : A)
| Throw (e : exn).
Arguments Return {A} a.
Arguments Throw {A} e.

Definition Eff (St A : Type) : Type := St → St * outcome A.

Definition ret {St A} (a : A) : Eff St A := λ st, (st, Return a).

Definition throw {St A} (e : exn) : Eff St A := λ st, (st, Throw e).

Definition bind {St A B} (c : Eff St A) (k : A → Eff St B) : Eff St B :=
  λ st, match c st with
        | (st', Return a) => k a st'
        | (st', Throw e) => (st', Throw e)
        end.

(** [try { ... } catch (err) { ... }] around a handler body. *)
Definition try_catch {St A} (c : Eff St A) (h : exn → A) : St → St * A :=
  λ st, match c st with
        | (st', Return a) => (st', a)
        | (st', Throw e) => (st', h e)
        end.

Declare Scope eff_scope.
Delimit Scope eff_scope with eff.
Notation "'let*' x := c 'in' k" := (bind c (λ x, k))
  (at level 10, x binder, c at level 100, k at level 200) : eff_scope.

(** A value or the exception thrown instead of it. *)
Definition of_sum {St A} (r : exn + A) : Eff St A :=
  match r with
  | inl e => throw e
  | inr a => ret a
  end.

(** The string of a cookie or of a field of the body when it is truthy:
    [undefined] and the empty string are falsy. *)
Definition truthy (o : option string) : option string :=
  match o with
  | Some (String _ _ as s) => Some s
  | _ => None
  end.

(** ** The collaborators of the handlers *)

(** The [storage] object, by the methods the handlers call on it. *)
Class Storage (St : Type) : Type := {
  getUserByUsername : string → Eff St (option User.t);
  getUser : Z → Eff St (option User.t);
  getAllUsers : Eff St (list User.t);
  incrementLoginAttempts : string → Eff St unit;
  setCooldown : string → Z → Eff St unit;
  resetLoginAttempts : string → Eff St unit;
  updateUserPassword : string → string → Eff St unit;
  createSession : Z → Eff St Session.t;
  getSession : string → Eff St (option Session.t);
}.

(** The reset route does not validate its body, and hands the [username]
    field to the storage as it is: these are [storage.getUserByUsername]
    and [storage.updateUserPassword] when that value is not a string. *)
Class UntypedStorage (St : Type) : Type := {
  getUserByUsername_any : JsonValue → Eff St (option User.t);
  updateUserPassword_any : JsonValue → string → Eff St unit;
}.

(** The two functions of the [bcrypt] package the handlers call, on
    strings.  The salt that [bcrypt.hash] draws is part of the instance. *)
Class Bcrypt : Type := {
  bcrypt_compare : string → string → bool;
  bcrypt_hash : string → nat → string;
}.

(** [loginSchema.parse]: the two fields of a well-formed body, or the
    error it throws. *)
Class Schema : Type := {
  loginSchema_parse : gmap string JsonValue → exn + (string * string);
}.

(** ** The route handlers of [registerRoutes] *)

Section Routes.
Context `{!Bcrypt} `{!Schema} {St : Type} `{!Storage St} `{!UntypedStorage St}.

Local Open Scope eff_scope.

(** The cookie set by a successful login. *)
Definition session_cookie (env : Env) (session : Session.t) : Cookie :=
  {| cookie_name := "sessionId";
     cookie_value := Session.id session;
     httpOnly := true;
     secure := bool_decide (NODE_ENV env = Some "production");
     sameSite := "none";
     maxAge := 24 * 60 * 60 * 1000 |}.

(** [user.cooldownUntil && user.cooldownUntil > new Date()]: the end of
    the cooldown when the test holds. *)
Definition active_cooldown (env : Env) (user : User.t) : option Z :=
  match User.cooldownUntil user with
  | Some until => if new_Date env <? until then Some until else None
  | None => None
  end.

(** The [try] block of [POST /api/login]. *)
Definition login_try (env : Env) (req : Request) : Eff St Response :=
  let* '(username, password) := of_sum (loginSchema_parse (body req)) in
  let* user := getUserByUsername username in
  match user with
  | None => ret (res_status 401 (JMessage "Invalid credentials"))
  | Some user =>
    match active_cooldown env user with
    | Some until =>
      let remaining := ceil_div (until - Date_now_remaining env) 1000 in
      ret (res_status 429
             (JRemaining "Account temporarily locked. Try again later." remaining))
    | None =>
      let isValid := bcrypt_compare password (User.password user) in
      if negb isValid then
        let* _ := incrementLoginAttempts username in
        if (2 <=? or_zero (User.loginAttempts user))%nat then
          let cooldownUntil := Date_now_lock env + 5 * 60 * 1000 in
          let* _ := setCooldown username cooldownUntil in
          ret (res_status 429
                 (JCooldown "Too many failed attempts. Account locked for 5 minutes."
                            cooldownUntil))
        else ret (res_status 401 (JMessage "Invalid credentials"))
      else
        let* _ := resetLoginAttempts username in
        let* session := createSession (User.id user) in
        let safeUser := omit_password (User.object user) in
        ret {| status := 200;
               json := JLogin safeUser session;
               cookie := Some (session_cookie env session) |}
    end
  end.

(** [POST /api/login]. *)
Definition login (env : Env) (req : Request) : St → St * Response :=
  try_catch (login_try env req)
            (λ err, res_status 400 (JMessage "Invalid request data")).

(** [storage.getUserByUsername] and [storage.updateUserPassword] on a
    value of the body. *)
Definition getUserByUsername_json (name : JsonValue) : Eff St (option User.t) :=
  match name with
  | JsonString name => getUserByUsername name
  | _ => getUserByUsername_any name
  end.

Definition updateUserPassword_json (name : JsonValue) (hashed : string) : Eff St unit :=
  match name with
  | JsonString name => updateUserPassword name hashed
  | _ => updateUserPassword_any name hashed
  end.

(** [bcrypt.hash] on a value of the body: the hash of a string, and the
    error it rejects with for data that is not one. *)
Definition bcrypt_hash_json (data : JsonValue) (rounds : nat) : exn + string :=
  match data with
  | JsonString data => inr (bcrypt_hash data rounds)
  | _ => inl (StoreError "data must be a string or Buffer and salt must either be a salt string or a number of rounds")
  end.

(** The [try] block of [POST /api/admin/reset-password]. *)
Definition admin_reset_password_try (req : Request) : Eff St Response :=
  match truthy (cookies req !! "sessionId") with
  | None => ret (res_status 401 (JMessage "Unauthorized"))
  | Some sessionId =>
    let* session := getSession sessionId in
    match session with
    | None => ret (res_status 401 (JMessage "Invalid session"))
    | Some session =>
      let* adminUser := getUser (Session.userId session) in
      if match adminUser with
         | None => true
         | Some adminUser =>
           negb (String.eqb (toLowerCase (User.role adminUser)) "admin")
         end
      then ret (res_status 403 (JMessage "Access denied"))
      else
        match truthy_field (body req !! "username"),
              truthy_field (body req !! "newPassword") with
        | Some username, Some newPassword =>
          let* staff := getUserByUsername_json username in
          match staff with
          | None => ret (res_status 404 (JMessage "User not found"))
          | Some _ =>
            let* hashed := of_sum (bcrypt_hash_json newPassword 10) in
            let* _ := updateUserPassword_json username hashed in
            ret (res_json (JMessage ("Password reset for " +:+ toString username)))
          end
        | _, _ =>
          ret (res_status 400 (JMessage "Username and newPassword required"))
        end
    end
  end.

(** [POST /api/admin/reset-password]. *)
Definition admin_reset_password (req : Request) : St → St * Response :=
  try_catch (admin_reset_password_try req)
            (λ err, res_status 500 (JMessage "Server error")).

(** The listing built by [GET /api/admin/accounts] from all users. *)
Definition sanitized (allUsers : list User.t) : list jsobj :=
  List.map (λ u, omit_password (User.object u))
    (List.filter (λ u, includes ["staff"; "supplier"] (toLowerCase (User.role u)))
                 allUsers).

(** The [try] block of [GET /api/admin/accounts]. *)
Definition admin_accounts_try (req : Request) : Eff St Response :=
  match truthy (cookies req !! "sessionId") with
  | None => ret (res_status 401 (JMessage "Unauthorized"))
  | Some sessionId =>
    let* session := getSession sessionId in
    match session with
    | None => ret (res_status 401 (JMessage "Invalid session"))
    | Some session =>
      let* adminUser := getUser (Session.userId session) in
      if match adminUser with
         | None => true
         | Some adminUser =>
           negb (String.eqb (toLowerCase (User.role adminUser)) "admin")
         end
      then ret (res_status 403 (JMessage "Access denied"))
      else
        let* allUsers := getAllUsers in
        ret (res_json (JAccounts (sanitized allUsers)))
    end
  end.

(** [GET /api/admin/accounts]. *)
Definition admin_accounts (req : Request) : St → St * Response :=
  try_catch (admin_accounts_try req)
            (λ err, res_status 500 (JMessage "Server error")).
End Routes.

(** ** The storage object *)

(** Modelled from the spec: the credential store and the session store of
    [server/storage.js], as the specification describes them: user records
    with unique user names, sessions keyed by their identifier, and pure
    data access.  The identifier of a new session is drawn from a counter
    (the model has no randomness). *)
Record Store : Type := {
  users : list User.t;
  sessions : gmap string Session.t;
  issued : N;
}.

Definition has_username (name : string) (u : User.t) : bool :=
  String.eqb (User.username u) name.

(** The update of the record of one user name. *)
Definition update_user (name : string) (f : User.t → User.t) (st : Store) : Store :=
  {| users := map (λ u, if has_username name u then f u else u) (users st);
     sessions := sessions st;
     issued := issued st |}.

Definition with_loginAttempts (n : nat) (u : User.t) : User.t :=
  User.mk (User.id u) (User.username u) (User.password u) (User.role u)
          n (User.cooldownUntil u).

Definition with_cooldownUntil (d : option Z) (u : User.t) : User.t :=
  User.mk (User.id u) (User.username u) (User.password u) (User.role u)
          (User.loginAttempts u) d.

Definition with_password (h : string) (u : User.t) : User.t :=
  User.mk (User.id u) (User.username u) h (User.role u)
          (User.loginAttempts u) (User.cooldownUntil u).

(** Modelled from the spec: the methods of the [storage] object of
    [server/storage.js].  A failed attempt adds one to the failure counter,
    a cooldown is a timestamp on the user, a successful login and a
    password reset by an admin put the counter back to zero, and a session
    is a new record under a new identifier. *)
#[export] Instance MemStorage : Storage Store := {|
  getUserByUsername name := λ st, (st, Return (find (has_username name) (users st)));
  getUser uid := λ st, (st, Return (find (λ u, User.id u =? uid) (users st)));
  getAllUsers := λ st, (st, Return (users st));
  incrementLoginAttempts name := λ st,
    (update_user name (λ u, with_loginAttempts (S (User.loginAttempts u)) u) st,
     Return ());
  setCooldown name until := λ st,
    (update_user name (with_cooldownUntil (Some until)) st, Return ());
  resetLoginAttempts name := λ st,
    (update_user name (with_loginAttempts 0) st, Return ());
  updateUserPassword name hashed := λ st,
    (update_user name (λ u, with_loginAttempts 0 (with_password hashed u)) st,
     Return ());
  createSession uid := λ st,
    let session := Session.mk ("session-" +:+ pretty (issued st)) uid in
    ({| users := users st;
        sessions := <[Session.id session := session]> (sessions st);
        issued := N.succ (issued st) |},
     Return session);
  getSession sid := λ st, (st, Return (sessions st !! sid));
|}.

(** Modelled from the spec: the user names of the credential store are
    strings, so that a name that is not a string finds no user and updates
    none. *)
#[export] Instance MemUntyped : UntypedStorage Store := {|
  getUserByUsername_any _ := λ st, (st, Return None);
  updateUserPassword_any _ _ := λ st, (st, Return ());
|}.

(** The in-memory store after a login with the valid password: the counter
    of the user at zero and the new session stored. *)
Definition logged_in (username : string) (session : Session.t) (st : Store) : Store :=
  {| users := users (update_user username (with_loginAttempts 0) st);
     sessions := <[Session.id session := session]> (sessions st);
     issued := N.succ (issued st) |}.

(** A store that is out of service: every call is rejected. *)
Definition unavailable {A} : Eff unit A := throw (StoreError "connection refused").

#[export] Instance DownStorage : Storage unit := {|
  getUserByUsername _ := unavailable;
  getUser _ := unavailable;
  getAllUsers := unavailable;
  incrementLoginAttempts _ := unavailable;
  setCooldown _ _ := unavailable;
  resetLoginAttempts _ := unavailable;
  updateUserPassword _ _ := unavailable;
  createSession _ := unavailable;
  getSession _ := unavailable;
|}.

#[export] Instance DownUntyped : UntypedStorage unit := {|
  getUserByUsername_any _ := unavailable;
  updateUserPassword_any _ _ := unavailable;
|}.

(** ** The authorization gate, in the words of the specification *)

(** [resolveActor]: look up the session, then its user; none if either
    look-up misses. *)
Definition resolveActor (sessionId : string) (st : Store) : option User.t :=
  match sessions st !! sessionId with
  | Some session => find (λ u, User.id u =? Session.userId session) (users st)
  | None => None
  end.

(** [requireRole]: the role of the actor against the required role, letter
    case apart. *)
Definition requireRole (actor : User.t) (role : string) : bool :=
  String.eqb (toLowerCase (User.role actor)) (toLowerCase role).

(** ** The two events that reset the failure counter *)

(** A request that is to reset the failure counter of [username] on the
    store [st]: a login of an existing user who is not locked out, with the
    valid password; or the reset of the password of an existing user, with
    both fields non-empty strings, under a session whose user is an
    admin. *)
Inductive resetting_request `{!Bcrypt} `{!Schema} (st : Store) (username : string) : Type :=
| successful_login (env : Env) (req : Request) (password : string) (user : User.t) :
    loginSchema_parse (body req) = inr (username, password) →
    getUserByUsername username st = (st, Return (Some user)) →
    (∀ until, User.cooldownUntil user = Some until → until ≤ new_Date env) →
    bcrypt_compare password (User.password user) = true →
    resetting_request st username
| admin_reset (req : Request) (sessionId : string) (session : Session.t)
    (actor target : User.t) (newPassword : string) :
    truthy (cookies req !! "sessionId") = Some sessionId →
    getSession sessionId st = (st, Return (Some session)) →
    getUser (Session.userId session) st = (st, Return (Some actor)) →
    requireRole actor "admin" = true →
    body req !! "username" = Some (JsonString username) →
    username ≠ "" →
    body req !! "newPassword" = Some (JsonString newPassword) →
    newPassword ≠ "" →
    getUserByUsername username st = (st, Return (Some target)) →
    resetting_request st username.

(** The route that serves it, run on the store. *)
Definition serve `{!Bcrypt} `{!Schema} {st : Store} {username : string}
    (e : resetting_request st username) : Store * Response :=
  match e with
  | successful_login _ _ env req _ _ _ _ _ _ => login env req st
  | admin_reset _ _ req _ _ _ _ _ _ _ _ _ _ _ _ _ _ => admin_reset_password req st
  end.

(** ** Requests served one after the other *)

(** The answers to a sequence of login requests, each served on the store
    as the one before left it. *)
Fixpoint logins `{!Bcrypt} `{!Schema} {St : Type} `{!Storage St}
    (attempts : list (Env * Request)) (st : St) : St * list Response :=
  match attempts with
  | [] => (st, [])
  | (env, req) :: rest =>
    let (st1, resp) := login env req st in
    let (st2, resps) := logins rest st1 in
    (st2, resp :: resps)
  end.

(** ** A small installation, for worked examples *)

Module Demo.
(** A stand-in for [bcrypt]: the hash of a password is the password after
    a fixed prefix. *)
Definition bcrypt : Bcrypt := {|
  bcrypt_compare plain hash := String.eqb hash ("hash:" +:+ plain);
  bcrypt_hash plain _ := "hash:" +:+ plain;
|}.

(** Another one, which takes every password for the right one. *)
Definition always_true : Bcrypt := {|
  bcrypt_compare _ _ := true;
  bcrypt_hash plain _ := plain;
|}.

(** A login schema that asks for the two fields. *)
Definition schema : Schema := {|
  loginSchema_parse b :=
    match b !! "username", b !! "password" with
    | Some (JsonString username), Some (JsonString password) => inr (username, password)
    | _, _ => inl (ZodError ["username and password are required"])
    end;
|}.

Definition alice : User.t := User.mk 1 "alice" "hash:wonderland" "Staff" 2 None.
Definition root : User.t := User.mk 2 "root" "hash:toor" "Admin" 0 None.
Definition carol : User.t := User.mk 3 "carol" "hash:xyzzy" "supplier" 4 (Some 900000).
Definition ghost : Session.t := Session.mk "session-1" 99.

Definition store : Store := {|
  users := [alice; root; carol];
  sessions := {[ "session-0" := Session.mk "session-0" 2; "session-1" := ghost;
                 "session-2" := Session.mk "session-2" 1 ]};
  issued := 3;
|}.

(** A request served at one instant of the clock. *)
Definition at_time (now : Z) : Env := {|
  new_Date := now;
  Date_now_remaining := now;
  Date_now_lock := now;
  NODE_ENV := Some "production";
|}.

Definition login_request (username password : string) : Request := {|
  cookies := ∅;
  body := {[ "username" := JsonString username; "password" := JsonString password ]};
|}.

Definition admin_request (sessionId : string) (fields : gmap string JsonValue) : Request := {|
  cookies := {[ "sessionId" := sessionId ]};
  body := fields;
|}.
End Demo.

(** ** The calls a handler makes on the storage object *)

(** One call of a method of [storage], with its arguments. *)
Inductive call : Type :=
| GetUserByUsername (username : string)
| GetUser (id : Z)
| GetAllUsers
| IncrementLoginAttempts (username : string)
| SetCooldown (username : string) (until : Z)
| ResetLoginAttempts (username : string)
| UpdateUserPassword (username hashed : string)
| CreateSession (userId : Z)
| GetSession (sessionId : string)
| GetUserByUsernameAny (username : JsonValue)
| UpdateUserPasswordAny (username : JsonValue) (hashed : string).

(** A method that notes its call in a journal kept beside the store. *)
Definition traced {St A : Type} (c : call) (m : Eff St A) : Eff (St * list call) A :=
  λ '(st, journal),
    match m st with
    | (st', o) => ((st', journal ++ [c]), o)
    end.

(** Any storage object, with every call noted as it is made. *)
Definition Traced {St : Type} `{!Storage St} : Storage (St * list call) := {|
  getUserByUsername name := traced (GetUserByUsername name) (getUserByUsername name);
  getUser uid := traced (GetUser uid) (getUser uid);
  getAllUsers := traced GetAllUsers getAllUsers;
  incrementLoginAttempts name :=
    traced (IncrementLoginAttempts name) (incrementLoginAttempts name);
  setCooldown name until := traced (SetCooldown name until) (setCooldown name until);
  resetLoginAttempts name := traced (ResetLoginAttempts name) (resetLoginAttempts name);
  updateUserPassword name hashed :=
    traced (UpdateUserPassword name hashed) (updateUserPassword name hashed);
  createSession uid := traced (CreateSession uid) (createSession uid);
  getSession sid := traced (GetSession sid) (getSession sid);
|}.

Definition TracedUntyped {St : Type} `{!UntypedStorage St} :
    UntypedStorage (St * list call) := {|
  getUserByUsername_any name :=
    traced (GetUserByUsernameAny name) (getUserByUsername_any name);
  updateUserPassword_any name hashed :=
    traced (UpdateUserPasswordAny name hashed) (updateUserPassword_any name hashed);
|}.

(** The methods that only read. *)
Definition reads (c : call) : bool :=
  match c with
  | GetUserByUsername _ | GetUser _ | GetAllUsers | GetSession _
  | GetUserByUsernameAny _ => true
  | _ => false
  end.

(** The call that looks up, and the call that writes the password of, the
    user named by a value of the body. *)
Definition lookup_call (name : JsonValue) : call :=
  match name with
  | JsonString name => GetUserByUsername name
  | _ => GetUserByUsernameAny name
  end.

Definition write_call (name : JsonValue) (hashed : string) : call :=
  match name with
  | JsonString name => UpdateUserPassword name hashed
  | _ => UpdateUserPasswordAny name hashed
  end.

(** ** The register and logout routes *)

(** [storage.registerUser], called by the register route. *)
Class Registration (St : Type) : Type := {
  registerUser : gmap string JsonValue → Eff St User.t;
}.

(** [storage.deleteSession], called by the logout route. *)
Class SessionEnd (St : Type) : Type := {
  deleteSession : string → Eff St unit;
}.

(** [registerSchema.parse]: the fields of a well-formed body, or the error
    it throws. *)
Class RegisterSchema : Type := {
  registerSchema_parse : gmap string JsonValue → exn + gmap string JsonValue;
}.

(** The JSON bodies the register route sends. *)
Inductive RegisterJson : Type :=
| RUser (user : jsobj)
| RErrors (message : string) (errors : list string)
| RMessage (message : string).

Record RegisterResponse : Type := {
  register_status : nat;
  register_json : RegisterJson;
}.

Record LogoutResponse : Type := {
  logout_status : nat;
  logout_json : Json;
  clearCookie : string;
}.

Section OtherRoutes.
Context `{!RegisterSchema} {St : Type} `{!Registration St} `{!SessionEnd St}.

Local Open Scope eff_scope.

(** The [try] block of [POST /api/register]. *)
Definition register_try (req : Request) : Eff St RegisterResponse :=
  let* userData := of_sum (registerSchema_parse (body req)) in
  let cleanData := delete "confirmPassword" userData in
  let* user := registerUser cleanData in
  let safeUser := omit_password (User.object user) in
  ret {| register_status := 201; register_json := RUser safeUser |}.

(** [POST /api/register]. *)
Definition register (req : Request) : St → St * RegisterResponse :=
  try_catch (register_try req)
    (λ error,
       match error with
       | ZodError errors =>
         {| register_status := 400;
            register_json := RErrors "Invalid request data" errors |}
       | StoreError message =>
         if String.eqb message "Username already exists"
         then {| register_status := 409; register_json := RMessage message |}
         else {| register_status := 400; register_json := RMessage "Invalid request" |}
       end).

(** [POST /api/logout].  The handler has no [try]: what [deleteSession]
    throws leaves it. *)
Definition logout (req : Request) : Eff St LogoutResponse :=
  let sessionId := cookies req !! "sessionId" in
  let* _ := match truthy sessionId with
            | Some sessionId => deleteSession sessionId
            | None => ret ()
            end in
  ret {| logout_status := 200;
         logout_json := JMessage "Logged out successfully";
         clearCookie := "sessionId" |}.
End OtherRoutes.

(** Modelled from the spec: [storage.deleteSession] of [server/storage.js]
    on the in-memory store: the session record is deleted if it is there,
    and a missing one is no error. *)
#[export] Instance MemSessionEnd : SessionEnd Store := {|
  deleteSession sid := λ st,
    ({| users := users st;
        sessions := delete sid (sessions st);
        issued := issued st |},
     Return ());
|}.

(** What a login leaves of a user whatever its outcome. *)
Definition identity (u : User.t) : Z * string * string * string :=
  (User.id u, User.username u, User.password u, User.role u).

(** ** The front server of [server/index.ts] *)

(** A JavaScript string by its UTF-16 code units, which is what [length]
    and [slice] count. *)
Abbreviation units := (list N).

(** The units of a literal of ASCII characters. *)
Definition lit (s : string) : units :=
  List.map Ascii.N_of_ascii (String.list_ascii_of_string s).

(** An integer in a template literal. *)
Definition decimal (n : Z) : units := lit (pretty n).

(** The literal appended to a shortened payload, as it stands in the
    source file: the three characters U+00E2, U+20AC and U+00A6. *)
Definition ellipsis : units := [226; 8364; 166]%N.

(** [String.prototype.startsWith]. *)
Fixpoint startsWith (s prefix : units) {struct prefix} : bool :=
  match prefix, s with
  | [], _ => true
  | p :: prefix', c :: s' => (p =? c)%N && startsWith s' prefix'
  | _ :: _, [] => false
  end.

Section Logging.
Context {J : Type}.
(** Whether a body passed to [res.json] is truthy, and [JSON.stringify] on
    it: the string, or nothing when it throws or gives [undefined]. *)
Context (json_truthy : J → bool) (JSON_stringify : J → option units).

(** The line the logging middleware passes to [log] when a response is
    finished, if it passes one.  [start] and [finish] are the two readings
    of [Date.now()]. *)
Definition logLine (method path : units) (statusCode start finish : Z)
    (capturedJsonResponse : option J) : option units :=
  if startsWith path (lit "/api") then
    let line := method ++ lit " " ++ path ++ lit " " ++ decimal statusCode
                ++ lit " in " ++ decimal (finish - start) ++ lit "ms" in
    Some
      match capturedJsonResponse with
      | Some bodyJson =>
        if json_truthy bodyJson then
          match JSON_stringify bodyJson with
          | Some jsonStr =>
            line ++ lit " :: "
                 ++ (if (80 <? length jsonStr)%nat
                     then take 79 jsonStr ++ ellipsis
                     else jsonStr)
          | None => line ++ lit " :: [unserializable JSON]"
          end
        else line
      | None => line
      end
  else None.
End Logging.

(** The fields the global error handler reads of the error it is given. *)
Record ServerError : Type := {
  err_status : option Z;
  err_statusCode : option Z;
  err_message : option string;
}.

Record ErrorResponse : Type := {
  error_status : Z;
  error_message : string;
}.

(** A number that is truthy: [undefined] and [0] are not. *)
Definition truthy_number (o : option Z) : option Z :=
  match o with
  | Some 0 => None
  | _ => o
  end.

(** The global error handler. *)
Definition error_handler (err : ServerError) : ErrorResponse :=
  let status :=
    match truthy_number (err_status err) with
    | Some s => s
    | None => default 500 (truthy_number (err_statusCode err))
    end in
  {| error_status := status;
     error_message := default "Internal Server Error" (truthy (err_message err)) |}.

Section Frontend.
(** [setupVite] and [serveStatic] of [server/vite.js], acting on the
    application. *)
Context {App : Type} (setupVite serveStatic : Eff App unit).

(** [setupFrontend], on the flag [frontendReady] and the application. *)
Definition setupFrontend (NODE_ENV : option string) : Eff (bool * App) unit :=
  λ '(frontendReady, app),
    if frontendReady then ((frontendReady, app), Return ())
    else
      match (if bool_decide (NODE_ENV = Some "development")
             then setupVite else serveStatic) app with
      | (app', Return _) => ((true, app'), Return ())
      | (app', Throw e) => ((frontendReady, app'), Throw e)
      end.

(** Calls of [setupFrontend] one after the other, up to the first that
    throws. *)
Fixpoint setups (envs : list (option string)) (s : bool * App) : (bool * App) * outcome unit :=
  match envs with
  | [] => (s, Return ())
  | NODE_ENV :: rest =>
    match setupFrontend NODE_ENV s with
    | (s', Return _) => setups rest s'
    | (s', Throw e) => (s', Throw e)
    end
  end.
End Frontend.

(** ** The client of [client/src/context/AuthProvider.tsx] *)

(** [res.ok]. *)
Definition ok (status : nat) : bool := ((200 <=? status) && (status <=? 299))%nat.

(** [data.message] and [data.user] of a JSON body of the server. *)
Definition data_message (data : Json) : option string :=
  match data with
  | JMessage m | JRemaining m _ | JCooldown m _ => Some m
  | JLogin _ _ | JAccounts _ => None
  end.

Definition data_user (data : Json) : option jsobj :=
  match data with
  | JLogin user _ => Some user
  | _ => None
  end.

(** The [mutationFn] of the login mutation, on the response of the server:
    the data, or the message of the [Error] it throws. *)
Definition loginMutationFn (res : Response) : string + Json :=
  let data := json res in
  if negb (ok (status res))
  then inl (default "Login failed" (truthy (data_message data)))
  else inr data.

(** ** A registration desk, for worked examples *)

Module DemoRegister.
(** A register schema that asks for the three fields and for the two
    passwords to agree. *)
Definition schema : RegisterSchema := {|
  registerSchema_parse b :=
    match b !! "username", b !! "password", b !! "confirmPassword" with
    | Some (JsonString _), Some (JsonString password),
      Some (JsonString confirmPassword) =>
      if String.eqb password confirmPassword then inr b
      else inl (ZodError ["Passwords do not match"])
    | _, _, _ => inl (ZodError ["Required"])
    end;
|}.

(** A field that is a string, or the string to take in its place. *)
Definition string_field (orelse : string) (o : option JsonValue) : string :=
  match o with
  | Some (JsonString s) => s
  | _ => orelse
  end.

(** Modelled from the spec: [storage.registerUser] of [server/storage.js]
    on the in-memory store: a user name that is taken is refused, and a new
    user is stored with the hash of the password, a counter at zero and no
    cooldown. *)
Definition registration : Registration Store := {|
  registerUser data := λ st,
    let name := string_field "" (data !! "username") in
    match find (has_username name) (users st) with
    | Some _ => (st, Throw (StoreError "Username already exists"))
    | None =>
      let user :=
        User.mk (Z.of_nat (S (length (users st)))) name
                (@bcrypt_hash Demo.bcrypt (string_field "" (data !! "password")) 10)
                (string_field "staff" (data !! "role")) 0 None in
      ({| users := users st ++ [user];
          sessions := sessions st;
          issued := issued st |},
       Return user)
    end;
|}.

Definition request (username password confirmPassword : string) : Request := {|
  cookies := ∅;
  body := {[ "username" := JsonString username; "password" := JsonString password;
             "confirmPassword" := JsonString confirmPassword ]};
|}.
End DemoRegister.

(** ** Facts about the helpers *)

Lemma or_zero_id (n : nat) : or_zero n = n.
Proof. by destruct n. Qed.

(** [ceil_div x d] is the least integer [r] with [x <= d * r]. *)
Lemma ceil_div_spec (x d : Z) :
  0 < d → d * (ceil_div x d - 1) < x ≤ d * ceil_div x d.
Proof.
  intros Hd. unfold ceil_div.
  pose proof (Z.mul_div_le (- x) d Hd).
  pose proof (Z.mul_succ_div_gt (- x) d Hd).
  lia.
Qed.

Lemma includes_elem_of (l : list string) (x : string) :
  includes l x = true ↔ x ∈ l.
Proof.
  induction l as [|y l IH]; simpl.
  - split; [done | by intros ?%not_elem_of_nil].
  - rewrite orb_true_iff, IH, elem_of_cons, String.eqb_eq.
    split; (intros [->|?]; [by left | by right]).
Qed.

(** What a field that is truthy is not. *)
Lemma truthy_field_Some (o : option JsonValue) (v : JsonValue) :
  truthy_field o = Some v ↔
  o = Some v ∧ v ∉ [JsonNull; JsonBool false; JsonNumber 0; JsonString ""].
Proof.
  assert (∀ w, w ∈ [JsonNull; JsonBool false; JsonNumber 0; JsonString ""] ↔
               w = JsonNull ∨ w = JsonBool false ∨ w = JsonNumber 0 ∨ w = JsonString "")
    as Hin.
  { intros w. rewrite !elem_of_cons, elem_of_nil. tauto. }
  rewrite Hin.
  destruct o as [[|[]|[| |]|[|]| |]|]; simpl; split;
    try (intros [= <-]; split; [done|]; intros [|[|[|]]]; done);
    try (by intros [[= <-] _]);
    try done;
    try (intros [[= <-] Hv]; exfalso; apply Hv; tauto).
Qed.

Lemma truthy_field_None (o : option JsonValue) :
  truthy_field o = None ↔
  o ∈ [None; Some JsonNull; Some (JsonBool false); Some (JsonNumber 0);
       Some (JsonString "")].
Proof.
  rewrite !elem_of_cons, elem_of_nil.
  destruct o as [[|[]|[| |]|[|]| |]|]; simpl; split; try done; try tauto;
    intros [|[|[|[|[|]]]]]; done.
Qed.

Lemma truthy_Some (o : option string) (s : string) :
  truthy o = Some s ↔ o = Some s ∧ s ≠ "".
Proof.
  destruct o as [[|c t]|]; simpl; split;
    try done; try (by intros [[= <-] ?]); by intros [= <-].
Qed.

(** ** Facts about the in-memory store *)

Section MemStorageFacts.
Implicit Types (st : Store) (u : User.t) (name : string).

(** After an update of the record of [name] that keeps the user name, the
    look-up of [name] finds the updated record. *)
Lemma find_update_user name f st :
  (∀ u, User.username (f u) = User.username u) →
  find (has_username name) (users (update_user name f st))
  = f <$> find (has_username name) (users st).
Proof.
  intros Hf. unfold update_user; simpl.
  induction (users st) as [|u l IH]; [done|]. simpl.
  destruct (has_username name u) eqn:Hu.
  - unfold has_username at 1. rewrite Hf. fold (has_username name u). by rewrite Hu.
  - by rewrite Hu, IH.
Qed.
End MemStorageFacts.

(** ** The handlers up to their first look-ups, on any storage *)

Section AnyStorage.
Context `{!Bcrypt} `{!Schema} {St : Type} `{!Storage St} `{!UntypedStorage St}.
Implicit Types (env : Env) (req : Request) (st : St) (user : User.t).

Ltac run_login := unfold login, try_catch, login_try, bind.
Ltac run_admin :=
  unfold admin_reset_password, admin_accounts, try_catch,
    admin_reset_password_try, admin_accounts_try, bind.

(** The cooldown test fails exactly when no cooldown is set or the one
    that is set is not after the clock. *)
Lemma active_cooldown_None env user :
  active_cooldown env user = None ↔
  ∀ until, User.cooldownUntil user = Some until → until ≤ new_Date env.
Proof.
  unfold active_cooldown. destruct (User.cooldownUntil user) as [d|].
  - destruct (Z.ltb_spec (new_Date env) d); split; try done.
    + intros Hd. specialize (Hd d eq_refl). lia.
    + intros _ ? [= <-]. done.
  - split; done.
Qed.

Lemma active_cooldown_Some env user until :
  active_cooldown env user = Some until ↔
  User.cooldownUntil user = Some until ∧ new_Date env < until.
Proof.
  unfold active_cooldown. destruct (User.cooldownUntil user) as [d|].
  - destruct (Z.ltb_spec (new_Date env) d); split; try done.
    + by intros [= <-].
    + by intros [[= <-] _].
    + intros [[= <-] ?]. lia.
  - split; [done | by intros [? _]].
Qed.

(** A body that the schema rejects never reaches the store. *)
Lemma login_malformed env req st e :
  loginSchema_parse (body req) = inl e →
  login env req st = (st, res_status 400 (JMessage "Invalid request data")).
Proof. intros Hparse. run_login. by rewrite Hparse. Qed.

(** A look-up that throws ends in the [catch] block. *)
Lemma login_lookup_throws env req st st' username password e :
  loginSchema_parse (body req) = inr (username, password) →
  getUserByUsername username st = (st', Throw e) →
  login env req st = (st', res_status 400 (JMessage "Invalid request data")).
Proof. intros Hparse Hget. run_login. rewrite Hparse. simpl. by rewrite Hget. Qed.

Lemma login_unknown env req st st' username password :
  loginSchema_parse (body req) = inr (username, password) →
  getUserByUsername username st = (st', Return None) →
  login env req st = (st', res_status 401 (JMessage "Invalid credentials")).
Proof. intros Hparse Hget. run_login. rewrite Hparse. simpl. by rewrite Hget. Qed.

Lemma login_cooling env req st st' username password user until :
  loginSchema_parse (body req) = inr (username, password) →
  getUserByUsername username st = (st', Return (Some user)) →
  active_cooldown env user = Some until →
  login env req st =
    (st', res_status 429
            (JRemaining "Account temporarily locked. Try again later."
                        (ceil_div (until - Date_now_remaining env) 1000))).
Proof.
  intros Hparse Hget Hcool. run_login. rewrite Hparse. simpl.
  by rewrite Hget, Hcool.
Qed.

(** A wrong password below the threshold, when the counter is stored. *)
Lemma login_invalid_below env req st st1 st2 username password user :
  loginSchema_parse (body req) = inr (username, password) →
  getUserByUsername username st = (st1, Return (Some user)) →
  active_cooldown env user = None →
  bcrypt_compare password (User.password user) = false →
  incrementLoginAttempts username st1 = (st2, Return ()) →
  (User.loginAttempts user < 2)%nat →
  login env req st = (st2, res_status 401 (JMessage "Invalid credentials")).
Proof.
  intros Hparse Hget Hcool Hcmp Hincr Hn. run_login. rewrite Hparse. simpl.
  rewrite Hget, Hcool, Hcmp. cbn [negb]. rewrite Hincr, or_zero_id.
  destruct (User.loginAttempts user) as [|[|n]]; [done | done | lia].
Qed.

Lemma admin_no_cookie req st :
  truthy (cookies req !! "sessionId") = None →
  admin_reset_password req st = (st, res_status 401 (JMessage "Unauthorized")) ∧
  admin_accounts req st = (st, res_status 401 (JMessage "Unauthorized")).
Proof. intros Hc. run_admin. by rewrite Hc. Qed.

Lemma admin_no_session req st st' sessionId :
  truthy (cookies req !! "sessionId") = Some sessionId →
  getSession sessionId st = (st', Return None) →
  admin_reset_password req st = (st', res_status 401 (JMessage "Invalid session")) ∧
  admin_accounts req st = (st', res_status 401 (JMessage "Invalid session")).
Proof. intros Hc Hs. run_admin. by rewrite Hc, Hs. Qed.

Lemma admin_no_user req st st1 st2 sessionId session :
  truthy (cookies req !! "sessionId") = Some sessionId →
  getSession sessionId st = (st1, Return (Some session)) →
  getUser (Session.userId session) st1 = (st2, Return None) →
  admin_reset_password req st = (st2, res_status 403 (JMessage "Access denied")) ∧
  admin_accounts req st = (st2, res_status 403 (JMessage "Access denied")).
Proof. intros Hc Hs Hu. run_admin. by rewrite Hc, Hs, Hu. Qed.

Lemma admin_wrong_role req st st1 st2 sessionId session actor :
  truthy (cookies req !! "sessionId") = Some sessionId →
  getSession sessionId st = (st1, Return (Some session)) →
  getUser (Session.userId session) st1 = (st2, Return (Some actor)) →
  String.eqb (toLowerCase (User.role actor)) "admin" = false →
  admin_reset_password req st = (st2, res_status 403 (JMessage "Access denied")) ∧
  admin_accounts req st = (st2, res_status 403 (JMessage "Access denied")).
Proof. intros Hc Hs Hu Hr. run_admin. by rewrite Hc, Hs, Hu, Hr. Qed.

(** The [catch] blocks of the admin handlers answer 500. *)
Lemma admin_session_throws req st st' sessionId e :
  truthy (cookies req !! "sessionId") = Some sessionId →
  getSession sessionId st = (st', Throw e) →
  admin_reset_password req st = (st', res_status 500 (JMessage "Server error")) ∧
  admin_accounts req st = (st', res_status 500 (JMessage "Server error")).
Proof. intros Hc Hs. run_admin. by rewrite Hc, Hs. Qed.
End AnyStorage.

(** ** The handlers on the in-memory store *)

Section OnMemStorage.
Context `{!Bcrypt} `{!Schema}.
Implicit Types (env : Env) (req : Request) (st : Store) (user : User.t).

(** The look-ups of the in-memory store read it and leave it as it is. *)
Lemma mem_getUserByUsername name st o :
  getUserByUsername name st = (st, Return o) ↔ find (has_username name) (users st) = o.
Proof. simpl. split; [by intros [= <-] | by intros <-]. Qed.

Lemma mem_getUser uid st o :
  getUser uid st = (st, Return o) ↔ find (λ u, User.id u =? uid) (users st) = o.
Proof. simpl. split; [by intros [= <-] | by intros <-]. Qed.

Lemma mem_getSession sessionId st o :
  getSession sessionId st = (st, Return o) ↔ sessions st !! sessionId = o.
Proof. simpl. split; [by intros [= <-] | by intros <-]. Qed.

(** The test of the handlers is [requireRole] for the role "admin", on the
    actor that [resolveActor] finds. *)
Lemma requireRole_admin (actor : User.t) :
  requireRole actor "admin" = String.eqb (toLowerCase (User.role actor)) "admin".
Proof. reflexivity. Qed.

Lemma resolveActor_session st sessionId session :
  sessions st !! sessionId = Some session →
  resolveActor sessionId st
  = find (λ u, User.id u =? Session.userId session) (users st).
Proof. intros Hs. unfold resolveActor. by rewrite Hs. Qed.

Lemma login_invalid env req st username password user :
  loginSchema_parse (body req) = inr (username, password) →
  find (has_username username) (users st) = Some user →
  active_cooldown env user = None →
  bcrypt_compare password (User.password user) = false →
  login env req st =
    let st1 :=
      update_user username (λ u, with_loginAttempts (S (User.loginAttempts u)) u) st in
    if (2 <=? User.loginAttempts user)%nat then
      (update_user username (with_cooldownUntil (Some (Date_now_lock env + 300000))) st1,
       res_status 429
         (JCooldown "Too many failed attempts. Account locked for 5 minutes."
                    (Date_now_lock env + 300000)))
    else (st1, res_status 401 (JMessage "Invalid credentials")).
Proof.
  intros Hparse Hfind Hcool Hcmp.
  unfold login, try_catch, login_try, bind. rewrite Hparse. simpl.
  rewrite Hfind, Hcool, Hcmp, or_zero_id. simpl.
  destruct (User.loginAttempts user) as [|[|n]]; reflexivity.
Qed.

Lemma login_valid env req st username password user :
  loginSchema_parse (body req) = inr (username, password) →
  find (has_username username) (users st) = Some user →
  active_cooldown env user = None →
  bcrypt_compare password (User.password user) = true →
  login env req st =
    let session := Session.mk ("session-" +:+ pretty (issued st)) (User.id user) in
    (logged_in username session st,
     {| status := 200;
        json := JLogin (omit_password (User.object user)) session;
        cookie := Some (session_cookie env session) |}).
Proof.
  intros Hparse Hfind Hcool Hcmp.
  unfold login, try_catch, login_try, bind. rewrite Hparse. simpl.
  by rewrite Hfind, Hcool, Hcmp.
Qed.

Lemma find_logged_in username session st :
  find (has_username username) (users (logged_in username session st))
  = with_loginAttempts 0 <$> find (has_username username) (users st).
Proof. unfold logged_in. cbn [users]. by rewrite find_update_user. Qed.

(** A login answered 200 went through the branch of the valid password. *)
Lemma login_200 env req st st' resp :
  login env req st = (st', resp) →
  status resp = 200%nat →
  ∃ username password user,
    loginSchema_parse (body req) = inr (username, password) ∧
    find (has_username username) (users st) = Some user ∧
    active_cooldown env user = None ∧
    bcrypt_compare password (User.password user) = true.
Proof.
  intros Hrun Hst.
  destruct (loginSchema_parse (body req)) as [e|[username password]] eqn:Hparse.
  { rewrite (login_malformed env req st e Hparse) in Hrun. by injection Hrun as <- <-. }
  destruct (find (has_username username) (users st)) as [user|] eqn:Hfind; last first.
  { apply mem_getUserByUsername in Hfind.
    rewrite (login_unknown env req st st _ _ Hparse Hfind) in Hrun.
    by injection Hrun as <- <-. }
  destruct (active_cooldown env user) as [d|] eqn:Hcool.
  { apply mem_getUserByUsername in Hfind.
    rewrite (login_cooling env req st st _ _ _ _ Hparse Hfind Hcool) in Hrun.
    by injection Hrun as <- <-. }
  destruct (bcrypt_compare password (User.password user)) eqn:Hcmp.
  { by exists username, password, user. }
  rewrite (login_invalid env req st _ _ _ Hparse Hfind Hcool Hcmp) in Hrun.
  cbv zeta in Hrun.
  destruct (2 <=? User.loginAttempts user)%nat; by injection Hrun as <- <-.
Qed.
End OnMemStorage.

Section AdminOnMemStorage.
Context `{!Bcrypt}.
Implicit Types (req : Request) (st : Store) (session : Session.t).

(** Past the gate, the listing is the sanitized list of all users. *)
Lemma admin_accounts_granted req st sessionId session actor :
  truthy (cookies req !! "sessionId") = Some sessionId →
  sessions st !! sessionId = Some session →
  find (λ u, User.id u =? Session.userId session) (users st) = Some actor →
  requireRole actor "admin" = true →
  admin_accounts req st = (st, res_json (JAccounts (sanitized (users st)))).
Proof.
  intros Hc Hs Hu Hr. rewrite requireRole_admin in Hr.
  unfold admin_accounts, try_catch, admin_accounts_try, bind. simpl.
  by rewrite Hc, Hs, Hu, Hr.
Qed.

(** Past the gate, the reset asks for its two fields, then for the user
    of that name, then for the hash of the new password, and stores it. *)
Lemma admin_reset_password_granted req st sessionId session actor :
  truthy (cookies req !! "sessionId") = Some sessionId →
  sessions st !! sessionId = Some session →
  find (λ u, User.id u =? Session.userId session) (users st) = Some actor →
  requireRole actor "admin" = true →
  admin_reset_password req st =
    match truthy_field (body req !! "username"),
          truthy_field (body req !! "newPassword") with
    | Some (JsonString username), Some newPassword =>
      match find (has_username username) (users st) with
      | None => (st, res_status 404 (JMessage "User not found"))
      | Some _ =>
        match newPassword with
        | JsonString newPassword =>
          (update_user username
             (λ u, with_loginAttempts 0 (with_password (bcrypt_hash newPassword 10) u))
             st,
           res_json (JMessage ("Password reset for " +:+ username)))
        | _ => (st, res_status 500 (JMessage "Server error"))
        end
      end
    | Some _, Some _ => (st, res_status 404 (JMessage "User not found"))
    | _, _ => (st, res_status 400 (JMessage "Username and newPassword required"))
    end.
Proof.
  intros Hc Hs Hu Hr. rewrite requireRole_admin in Hr.
  unfold admin_reset_password, try_catch, admin_reset_password_try, bind. simpl.
  rewrite Hc, Hs, Hu, Hr. simpl.
  destruct (truthy_field (body req !! "username")) as [username|]; [|done].
  destruct (truthy_field (body req !! "newPassword")) as [newPassword|];
    [|by destruct username].
  destruct username as [| | |username| |]; simpl; try done.
  destruct (find (has_username username) (users st)); [|done].
  by destruct newPassword.
Qed.

(** A reset answered 200 has updated the record of the user named in the
    body, with the hash of the new password of the body, both strings. *)
Lemma admin_reset_password_200 req st st' resp :
  admin_reset_password req st = (st', resp) →
  status resp = 200%nat →
  ∃ username newPassword,
    body req !! "username" = Some (JsonString username) ∧
    body req !! "newPassword" = Some (JsonString newPassword) ∧
    is_Some (find (has_username username) (users st)) ∧
    st' = update_user username
            (λ u, with_loginAttempts 0 (with_password (bcrypt_hash newPassword 10) u)) st.
Proof.
  intros Hrun Hst.
  destruct (truthy (cookies req !! "sessionId")) as [sessionId|] eqn:Hc; last first.
  { destruct (admin_no_cookie req st Hc) as [E _]. rewrite E in Hrun.
    by injection Hrun as <- <-. }
  destruct (sessions st !! sessionId) as [session|] eqn:Hs; last first.
  { destruct (admin_no_session req st st _ Hc) as [E _]; [by apply mem_getSession|].
    rewrite E in Hrun. by injection Hrun as <- <-. }
  destruct (find (λ u, User.id u =? Session.userId session) (users st))
    as [actor|] eqn:Hu; last first.
  { destruct (admin_no_user req st st st _ session Hc) as [E _];
      [by apply mem_getSession | by apply mem_getUser |].
    rewrite E in Hrun. by injection Hrun as <- <-. }
  destruct (requireRole actor "admin") eqn:Hr; last first.
  { destruct (admin_wrong_role req st st st _ session actor Hc) as [E _];
      [by apply mem_getSession | by apply mem_getUser | done |].
    rewrite E in Hrun. by injection Hrun as <- <-. }
  rewrite (admin_reset_password_granted req st _ _ _ Hc Hs Hu Hr) in Hrun.
  destruct (truthy_field (body req !! "username")) as [username|] eqn:Hname;
    [|by injection Hrun as <- <-].
  destruct (truthy_field (body req !! "newPassword")) as [newPassword|] eqn:Hnew;
    [|by destruct username; injection Hrun as <- <-].
  destruct username as [| | |username| |]; try by injection Hrun as <- <-.
  destruct (find (has_username username) (users st)) as [target|] eqn:Ht;
    [|by injection Hrun as <- <-].
  destruct newPassword as [| | |newPassword| |]; try by injection Hrun as <- <-.
  injection Hrun as <- <-.
  apply truthy_field_Some in Hname as [Hname _].
  apply truthy_field_Some in Hnew as [Hnew _].
  exists username, newPassword. by rewrite Ht.
Qed.
End AdminOnMemStorage.

Lemma sanitized_spec (allUsers : list User.t) (o : jsobj) :
  o ∈ sanitized allUsers ↔
  ∃ u, u ∈ allUsers ∧
       toLowerCase (User.role u) ∈ ["staff"; "supplier"] ∧
       o = omit_password (User.object u).
Proof.
  unfold sanitized. rewrite list_elem_of_In, in_map_iff. split.
  - intros (u & <- & Hu). apply filter_In in Hu as [Hin Hrole].
    exists u. by rewrite list_elem_of_In, <- includes_elem_of.
  - intros (u & Hin & Hrole & ->). exists u. split; [done|].
    apply filter_In. by rewrite <- list_elem_of_In, includes_elem_of.
Qed.

(** The only answer of the listing that carries accounts is the sanitized
    list of the users that [getAllUsers] returned. *)
Lemma admin_accounts_JAccounts {St : Type} `{!Storage St} (req : Request) (st st' : St)
    (resp : Response) (accounts : list jsobj) :
  admin_accounts req st = (st', resp) →
  json resp = JAccounts accounts →
  ∃ st0 allUsers,
    getAllUsers st0 = (st', Return allUsers) ∧ accounts = sanitized allUsers.
Proof.
  unfold admin_accounts, try_catch, admin_accounts_try, bind.
  destruct (truthy (cookies req !! "sessionId")) as [sessionId|];
    [|by intros [= <- <-]].
  destruct (getSession sessionId st) as [st1 [[session|]|e]];
    [|by intros [= <- <-]..].
  destruct (getUser (Session.userId session) st1) as [st2 [[actor|]|e]];
    [|by intros [= <- <-]..].
  destruct (toLowerCase (User.role actor) =? "admin")%string; simpl;
    [|by intros [= <- <-]].
  destruct (getAllUsers st2) as [st3 [allUsers|e]] eqn:Hall;
    [|by intros [= <- <-]].
  intros [= <- <-] [= <-]. by exists st2, allUsers.
Qed.

(** ** The login handler: what the specification says of it *)

(** C1: on an existing user who is not locked out, a wrong password adds
    one to the failure counter; when the counter was at least 2 before, the
    cooldown is set to the clock plus five minutes and the answer is 429
    with that timestamp; otherwise the answer is the generic 401. *)
Theorem login_wrong_password `{!Bcrypt} `{!Schema}
    (env : Env) (req : Request) (st : Store)
    (username password : string) (user : User.t) :
  loginSchema_parse (body req) = inr (username, password) →
  getUserByUsername username st = (st, Return (Some user)) →
  (∀ until, User.cooldownUntil user = Some until → until ≤ new_Date env) →
  bcrypt_compare password (User.password user) = false →
  ∃ st' resp user',
    login env req st = (st', resp) ∧
    getUserByUsername username st' = (st', Return (Some user')) ∧
    User.loginAttempts user' = S (User.loginAttempts user) ∧
    User.password user' = User.password user ∧
    if (2 <=? User.loginAttempts user)%nat then
      User.cooldownUntil user' = Some (Date_now_lock env + 5 * 60 * 1000) ∧
      resp = res_status 429
               (JCooldown "Too many failed attempts. Account locked for 5 minutes."
                          (Date_now_lock env + 5 * 60 * 1000))
    else
      User.cooldownUntil user' = User.cooldownUntil user ∧
      resp = res_status 401 (JMessage "Invalid credentials").
Proof.
  intros Hparse Hfind Hcool Hcmp.
  apply mem_getUserByUsername in Hfind. apply active_cooldown_None in Hcool.
  pose proof (login_invalid env req st _ _ _ Hparse Hfind Hcool Hcmp) as Hrun.
  cbv zeta in Hrun.
  destruct (2 <=? User.loginAttempts user)%nat eqn:Hn; eexists _, _, _;
    (split; [exact Hrun|]); rewrite mem_getUserByUsername.
  - rewrite !find_update_user, Hfind by done. simpl. by repeat split.
  - rewrite find_update_user, Hfind by done. simpl. by repeat split.
Qed.

Lemma login_wrong_password_witness :
  let env := Demo.at_time 1000 in
  let req := Demo.login_request "alice" "guess" in
  ∃ st' resp user',
    @login Demo.bcrypt Demo.schema Store MemStorage env req Demo.store = (st', resp) ∧
    getUserByUsername "alice" st' = (st', Return (Some user')) ∧
    User.loginAttempts user' = 3%nat ∧
    User.password user' = "hash:wonderland" ∧
    User.cooldownUntil user' = Some 301000 ∧
    resp = res_status 429
             (JCooldown "Too many failed attempts. Account locked for 5 minutes." 301000).
Proof.
  intros env req.
  apply (@login_wrong_password Demo.bcrypt Demo.schema env req Demo.store
           "alice" "guess" Demo.alice);
    [reflexivity | reflexivity | intros d [=] | reflexivity].
Defined.

(** C2: while the cooldown of a user is set and after the clock, a login
    for that user is answered 429 with the remaining seconds, the ceiling
    of the milliseconds left over 1000, whatever the password and whatever
    [bcrypt.compare] would say of it, and the store is as the look-up of
    the user left it: no counter and no other field is written. *)
Theorem login_during_cooldown (B1 B2 : Bcrypt) `{!Schema} {St : Type} `{!Storage St}
    (env : Env) (req1 req2 : Request) (st : St)
    (username password1 password2 : string) (user : User.t) (until : Z) :
  loginSchema_parse (body req1) = inr (username, password1) →
  loginSchema_parse (body req2) = inr (username, password2) →
  getUserByUsername username st = (st, Return (Some user)) →
  User.cooldownUntil user = Some until →
  new_Date env < until →
  let remaining := ceil_div (until - Date_now_remaining env) 1000 in
  @login B1 _ _ _ env req1 st =
    (st, res_status 429
           (JRemaining "Account temporarily locked. Try again later." remaining)) ∧
  @login B2 _ _ _ env req2 st = @login B1 _ _ _ env req1 st ∧
  1000 * (remaining - 1) < until - Date_now_remaining env ≤ 1000 * remaining.
Proof.
  intros Hparse1 Hparse2 Hget Huntil Hlt remaining.
  assert (active_cooldown env user = Some until) as Hcool
    by by apply active_cooldown_Some.
  rewrite (@login_cooling B1 _ _ _ env req1 st st _ _ _ _ Hparse1 Hget Hcool).
  rewrite (@login_cooling B2 _ _ _ env req2 st st _ _ _ _ Hparse2 Hget Hcool).
  split; [done|]. split; [done|]. by apply ceil_div_spec.
Qed.

Lemma login_during_cooldown_witness :
  let env := Demo.at_time 899001 in
  let req1 := Demo.login_request "carol" "guess" in
  let req2 := Demo.login_request "carol" "xyzzy" in
  @login Demo.bcrypt Demo.schema Store MemStorage env req1 Demo.store =
    (Demo.store,
     res_status 429 (JRemaining "Account temporarily locked. Try again later." 1)) ∧
  @login Demo.always_true Demo.schema Store MemStorage env req2 Demo.store =
    @login Demo.bcrypt Demo.schema Store MemStorage env req1 Demo.store ∧
  1000 * (1 - 1) < 900000 - 899001 ≤ 1000 * 1.
Proof.
  intros env req1 req2.
  apply (@login_during_cooldown Demo.bcrypt Demo.always_true Demo.schema Store MemStorage
           env req1 req2 Demo.store "carol" "guess" "xyzzy" Demo.carol 900000);
    [reflexivity | reflexivity | reflexivity | reflexivity | reflexivity].
Defined.

(** C3: for a user name that the store does not know, the answer is the
    generic 401, the same for any two passwords (and for any two
    instants); it is also the answer an existing user gets for a wrong
    password below the threshold. *)
Theorem login_unknown_username (B1 B2 : Bcrypt) `{!Schema} {St : Type} `{!Storage St}
    (env1 env2 : Env) (req1 req2 : Request) (st : St)
    (username password1 password2 : string) :
  loginSchema_parse (body req1) = inr (username, password1) →
  loginSchema_parse (body req2) = inr (username, password2) →
  getUserByUsername username st = (st, Return None) →
  @login B1 _ _ _ env1 req1 st = (st, res_status 401 (JMessage "Invalid credentials")) ∧
  @login B2 _ _ _ env2 req2 st = @login B1 _ _ _ env1 req1 st ∧
  ∀ (env : Env) (req : Request) (other password : string) (user : User.t) (st' : St),
    loginSchema_parse (body req) = inr (other, password) →
    getUserByUsername other st = (st, Return (Some user)) →
    active_cooldown env user = None →
    @bcrypt_compare B1 password (User.password user) = false →
    incrementLoginAttempts other st = (st', Return ()) →
    (User.loginAttempts user < 2)%nat →
    (@login B1 _ _ _ env req st).2 = (@login B1 _ _ _ env1 req1 st).2.
Proof.
  intros Hparse1 Hparse2 Hget.
  rewrite (@login_unknown B1 _ _ _ env1 req1 st st _ _ Hparse1 Hget).
  rewrite (@login_unknown B2 _ _ _ env2 req2 st st _ _ Hparse2 Hget).
  split; [done|]. split; [done|].
  intros env req other password user st' Hparse Hother Hcool Hcmp Hincr Hn.
  by rewrite (@login_invalid_below B1 _ _ _ env req st st st' _ _ _
                Hparse Hother Hcool Hcmp Hincr Hn).
Qed.

Lemma login_unknown_username_witness :
  let req1 := Demo.login_request "mallory" "guess" in
  let req2 := Demo.login_request "mallory" "another guess" in
  @login Demo.bcrypt Demo.schema Store MemStorage (Demo.at_time 1000) req1 Demo.store =
    (Demo.store, res_status 401 (JMessage "Invalid credentials")) ∧
  @login Demo.always_true Demo.schema Store MemStorage (Demo.at_time 2000) req2 Demo.store =
    @login Demo.bcrypt Demo.schema Store MemStorage (Demo.at_time 1000) req1 Demo.store.
Proof.
  intros req1 req2.
  destruct (@login_unknown_username Demo.bcrypt Demo.always_true Demo.schema
              Store MemStorage
              (Demo.at_time 1000) (Demo.at_time 2000) req1 req2 Demo.store
              "mallory" "guess" "another guess" eq_refl eq_refl eq_refl)
    as (H1 & H2 & _).
  exact (conj H1 H2).
Defined.

(** C4: on an existing user who is not locked out, the correct password
    puts the failure counter back to 0, whatever it was, stores a new
    session for the user and sends its identifier in the cookie, and the
    answer is 200 with the user record less its [password] field. *)
Theorem login_correct_password `{!Bcrypt} `{!Schema}
    (env : Env) (req : Request) (st : Store)
    (username password : string) (user : User.t) :
  loginSchema_parse (body req) = inr (username, password) →
  getUserByUsername username st = (st, Return (Some user)) →
  (∀ until, User.cooldownUntil user = Some until → until ≤ new_Date env) →
  bcrypt_compare password (User.password user) = true →
  ∃ st' resp safeUser session user',
    login env req st = (st', resp) ∧
    status resp = 200%nat ∧
    json resp = JLogin safeUser session ∧
    (* the counter *)
    getUserByUsername username st' = (st', Return (Some user')) ∧
    User.loginAttempts user' = 0%nat ∧
    (* the session *)
    getSession (Session.id session) st' = (st', Return (Some session)) ∧
    Session.userId session = User.id user ∧
    cookie_value <$> cookie resp = Some (Session.id session) ∧
    (* the user sent back *)
    safeUser !! "password" = None ∧
    ∀ field, field ≠ "password" → safeUser !! field = User.object user !! field.
Proof.
  intros Hparse Hfind Hcool Hcmp.
  apply mem_getUserByUsername in Hfind. apply active_cooldown_None in Hcool.
  pose proof (login_valid env req st _ _ _ Hparse Hfind Hcool Hcmp) as Hrun.
  cbv zeta in Hrun.
  eexists _, _, _, _, _. split; [exact Hrun|].
  split; [done|]. split; [done|].
  split. { apply mem_getUserByUsername. by rewrite find_logged_in, Hfind. }
  split; [done|].
  split. { apply mem_getSession. apply lookup_insert_eq. }
  split; [done|]. split; [done|].
  split. { apply lookup_delete_eq. }
  intros field Hfield. by apply lookup_delete_ne.
Qed.

Lemma login_correct_password_witness :
  ∃ st' resp safeUser session user',
    @login Demo.bcrypt Demo.schema Store MemStorage (Demo.at_time 1000)
           (Demo.login_request "alice" "wonderland") Demo.store = (st', resp) ∧
    status resp = 200%nat ∧
    json resp = JLogin safeUser session ∧
    getUserByUsername "alice" st' = (st', Return (Some user')) ∧
    User.loginAttempts user' = 0%nat ∧
    getSession (Session.id session) st' = (st', Return (Some session)) ∧
    Session.userId session = 1 ∧
    cookie_value <$> cookie resp = Some (Session.id session) ∧
    safeUser !! "password" = None ∧
    ∀ field, field ≠ "password" → safeUser !! field = User.object Demo.alice !! field.
Proof.
  apply (@login_correct_password Demo.bcrypt Demo.schema (Demo.at_time 1000)
           (Demo.login_request "alice" "wonderland") Demo.store
           "alice" "wonderland" Demo.alice);
    [reflexivity | reflexivity | intros d [=] | reflexivity].
Defined.

(** C5: each of the two events that reset the failure counter leaves it
    at 0.  A login of an existing user who is not locked out, with the
    valid password, is answered 200, and so is the reset of the password
    of an existing user by an admin; after either, the counter of the user
    concerned is 0. *)
Theorem loginAttempts_zero_after_reset `{!Bcrypt} `{!Schema}
    (st : Store) (username : string) (e : resetting_request st username) :
  let st' := (serve e).1 in
  status (serve e).2 = 200%nat ∧
  ∃ user',
    getUserByUsername username st' = (st', Return (Some user')) ∧
    User.loginAttempts user' = 0%nat.
Proof.
  destruct e as [env req password user Hparse Hfind Hcool Hcmp
                |req sessionId session actor target newPassword
                   Hc Hs Hu Hr Hname Hne Hnew Hne' Htarget]; cbn [serve].
  - apply mem_getUserByUsername in Hfind. apply active_cooldown_None in Hcool.
    rewrite (login_valid env req st _ _ _ Hparse Hfind Hcool Hcmp).
    cbv zeta. cbn [fst snd status]. split; [done|].
    eexists. rewrite mem_getUserByUsername, find_logged_in, Hfind. done.
  - apply mem_getSession in Hs. apply mem_getUser in Hu.
    apply mem_getUserByUsername in Htarget.
    rewrite (admin_reset_password_granted req st _ _ _ Hc Hs Hu Hr).
    rewrite Hname, Hnew.
    assert (truthy_field (Some (JsonString username)) = Some (JsonString username))
      as -> by by destruct username.
    assert (truthy_field (Some (JsonString newPassword))
            = Some (JsonString newPassword)) as -> by by destruct newPassword.
    rewrite Htarget. cbn [fst snd status res_json res_status]. split; [done|].
    eexists. rewrite mem_getUserByUsername, find_update_user, Htarget by done. done.
Qed.

Lemma loginAttempts_zero_after_reset_witness :
  let login_run :=
    @login Demo.bcrypt Demo.schema Store MemStorage (Demo.at_time 1000)
      (Demo.login_request "alice" "wonderland") Demo.store in
  let reset_run :=
    @admin_reset_password Demo.bcrypt Store MemStorage MemUntyped
      (Demo.admin_request "session-0"
         {[ "username" := JsonString "carol"; "newPassword" := JsonString "plugh" ]})
      Demo.store in
  (status login_run.2 = 200%nat ∧
   ∃ user',
     getUserByUsername "alice" login_run.1 = (login_run.1, Return (Some user')) ∧
     User.loginAttempts user' = 0%nat) ∧
  (status reset_run.2 = 200%nat ∧
   ∃ user',
     getUserByUsername "carol" reset_run.1 = (reset_run.1, Return (Some user')) ∧
     User.loginAttempts user' = 0%nat).
Proof.
  intros login_run reset_run. split.
  - apply (@loginAttempts_zero_after_reset Demo.bcrypt Demo.schema Demo.store "alice"
             (@successful_login Demo.bcrypt Demo.schema Demo.store "alice"
                (Demo.at_time 1000) (Demo.login_request "alice" "wonderland")
                "wonderland" Demo.alice ltac:(reflexivity) ltac:(reflexivity)
                ltac:(intros d [=]) ltac:(reflexivity))).
  - apply (@loginAttempts_zero_after_reset Demo.bcrypt Demo.schema Demo.store "carol"
             (@admin_reset Demo.bcrypt Demo.schema Demo.store "carol"
                (Demo.admin_request "session-0"
                   {[ "username" := JsonString "carol";
                      "newPassword" := JsonString "plugh" ]})
                "session-0" (Session.mk "session-0" 2) Demo.root Demo.carol "plugh"
                ltac:(reflexivity) ltac:(reflexivity) ltac:(reflexivity)
                ltac:(reflexivity) ltac:(reflexivity) ltac:(discriminate)
                ltac:(reflexivity) ltac:(discriminate) ltac:(reflexivity))).
Defined.

(** These are all the resetting events: a login answered 200, and a reset
    of a password answered 200, is the run of such a request. *)
Lemma answered_200_resetting_request `{!Bcrypt} `{!Schema}
    (st st' : Store) (resp : Response) :
  status resp = 200%nat →
  (∀ env req, login env req st = (st', resp) →
     ∃ username (e : resetting_request st username), serve e = (st', resp)) ∧
  (∀ req, admin_reset_password req st = (st', resp) →
     ∃ username (e : resetting_request st username), serve e = (st', resp)).
Proof.
  intros Hst. split.
  - intros env req Hrun.
    destruct (login_200 env req st st' resp Hrun Hst)
      as (username & password & user & Hparse & Hfind & Hcool & Hcmp).
    apply mem_getUserByUsername in Hfind.
    pose proof (proj1 (active_cooldown_None env user) Hcool) as Hpast.
    by exists username,
      (successful_login st username env req password user Hparse Hfind Hpast Hcmp).
  - intros req Hrun.
    destruct (truthy (cookies req !! "sessionId")) as [sessionId|] eqn:Hc; last first.
    { destruct (admin_no_cookie req st Hc) as [E _]. rewrite E in Hrun.
      by injection Hrun as <- <-. }
    destruct (sessions st !! sessionId) as [session|] eqn:Hs; last first.
    { destruct (admin_no_session req st st _ Hc) as [E _]; [by apply mem_getSession|].
      rewrite E in Hrun. by injection Hrun as <- <-. }
    destruct (find (λ u, User.id u =? Session.userId session) (users st))
      as [actor|] eqn:Hu; last first.
    { destruct (admin_no_user req st st st _ session Hc) as [E _];
        [by apply mem_getSession | by apply mem_getUser |].
      rewrite E in Hrun. by injection Hrun as <- <-. }
    destruct (requireRole actor "admin") eqn:Hr; last first.
    { destruct (admin_wrong_role req st st st _ session actor Hc) as [E _];
        [by apply mem_getSession | by apply mem_getUser | done |].
      rewrite E in Hrun. by injection Hrun as <- <-. }
    destruct (admin_reset_password_200 req st st' resp Hrun Hst)
      as (username & newPassword & Hname & Hnew & [target Htarget] & _).
    assert (username ≠ "") as Hne.
    { intros ->. rewrite (admin_reset_password_granted req st _ _ _ Hc Hs Hu Hr) in Hrun.
      rewrite Hname in Hrun. simpl in Hrun. by injection Hrun as <- <-. }
    assert (newPassword ≠ "") as Hne'.
    { intros ->. rewrite (admin_reset_password_granted req st _ _ _ Hc Hs Hu Hr) in Hrun.
      rewrite Hnew in Hrun. simpl in Hrun.
      destruct (truthy_field (body req !! "username")) as [[]|];
        by injection Hrun as <- <-. }
    apply mem_getSession in Hs. apply mem_getUser in Hu.
    apply mem_getUserByUsername in Htarget.
    by exists username,
      (admin_reset st username req sessionId session actor target newPassword
         Hc Hs Hu Hr Hname Hne Hnew Hne' Htarget).
Qed.

(** ** The admin handlers: what the specification says of them *)

(** C7: whatever users the store returns, every record in the answer of
    the account listing is the record of one of them whose role, in lower
    case, is "staff" or "supplier", with its [password] field taken out; so
    no record of a role that is "admin" in some letter case is in it. *)
Theorem admin_accounts_listing {St : Type} `{!Storage St}
    (req : Request) (st st' : St) (resp : Response) (accounts : list jsobj) :
  admin_accounts req st = (st', resp) →
  json resp = JAccounts accounts →
  ∃ st0 allUsers,
    getAllUsers st0 = (st', Return allUsers) ∧
    ∀ o, o ∈ accounts →
      o !! "password" = None ∧
      ∃ u, u ∈ allUsers ∧
           o = omit_password (User.object u) ∧
           o !! "role" = Some (JStr (User.role u)) ∧
           toLowerCase (User.role u) ∈ ["staff"; "supplier"] ∧
           toLowerCase (User.role u) ≠ "admin".
Proof.
  intros Hrun Hjson.
  destruct (admin_accounts_JAccounts req st st' resp accounts Hrun Hjson)
    as (st0 & allUsers & Hall & ->).
  exists st0, allUsers. split; [done|]. intros o Ho.
  apply sanitized_spec in Ho as (u & Hin & Hrole & ->).
  split; [apply lookup_delete_eq|].
  exists u. repeat split; try done.
  intros Hadmin. rewrite Hadmin in Hrole.
  by repeat (apply elem_of_cons in Hrole as [?|Hrole]; [done|]);
    apply not_elem_of_nil in Hrole.
Qed.

Lemma admin_accounts_listing_witness :
  let req := Demo.admin_request "session-0" ∅ in
  let run := @admin_accounts Store MemStorage req Demo.store in
  json run.2 = JAccounts [omit_password (User.object Demo.alice);
                          omit_password (User.object Demo.carol)] ∧
  ∃ st0 allUsers,
    getAllUsers st0 = (run.1, Return allUsers) ∧
    ∀ o, o ∈ [omit_password (User.object Demo.alice);
              omit_password (User.object Demo.carol)] →
      o !! "password" = None ∧
      ∃ u, u ∈ allUsers ∧
           o = omit_password (User.object u) ∧
           o !! "role" = Some (JStr (User.role u)) ∧
           toLowerCase (User.role u) ∈ ["staff"; "supplier"] ∧
           toLowerCase (User.role u) ≠ "admin".
Proof.
  intros req run. split; [reflexivity|].
  apply (@admin_accounts_listing Store MemStorage req Demo.store run.1 run.2);
    reflexivity.
Defined.

(** C8: on both admin routes, a request without a session cookie or with
    one that names no session is answered 401; with a session whose user
    exists, the request passes exactly when the role of that user is
    "admin" letter case apart, and is answered 403 otherwise.  The roles
    "Admin" and "admin" pass, the role "Staff" does not.  A request that
    passes gets the listing, and from the reset route what the rest of the
    handler answers: 200, 400, 404, or 500 when [bcrypt.hash] refuses a new
    password that is not a string. *)
Theorem admin_role_gate `{!Bcrypt} :
  (∀ actor, User.role actor ∈ ["Admin"; "admin"] → requireRole actor "admin" = true) ∧
  (∀ actor, User.role actor = "Staff" → requireRole actor "admin" = false) ∧
  ∀ (req : Request) (st : Store),
    let reset := (admin_reset_password req st).2 in
    let accounts := (admin_accounts req st).2 in
    match truthy (cookies req !! "sessionId") with
    | None =>
      reset = res_status 401 (JMessage "Unauthorized") ∧
      accounts = res_status 401 (JMessage "Unauthorized")
    | Some sessionId =>
      match sessions st !! sessionId with
      | None =>
        reset = res_status 401 (JMessage "Invalid session") ∧
        accounts = res_status 401 (JMessage "Invalid session")
      | Some _ =>
        match resolveActor sessionId st with
        | None => status reset = 403%nat ∧ status accounts = 403%nat
        | Some actor =>
          if requireRole actor "admin" then
            status reset ∈ [200; 400; 404; 500]%nat ∧
            accounts = res_json (JAccounts (sanitized (users st)))
          else
            reset = res_status 403 (JMessage "Access denied") ∧
            accounts = res_status 403 (JMessage "Access denied")
        end
      end
    end.
Proof.
  split; [|split].
  - intros actor Hrole. unfold requireRole.
    apply elem_of_cons in Hrole as [->|Hrole]; [done|].
    apply elem_of_cons in Hrole as [->|Hrole]; [done|].
    by apply not_elem_of_nil in Hrole.
  - intros actor Hrole. unfold requireRole. by rewrite Hrole.
  - intros req st reset accounts. subst reset accounts.
    destruct (truthy (cookies req !! "sessionId")) as [sessionId|] eqn:Hc; last first.
    { by destruct (admin_no_cookie req st Hc) as [-> ->]. }
    destruct (sessions st !! sessionId) as [session|] eqn:Hs; last first.
    { by destruct (admin_no_session req st st _ Hc) as [-> ->];
        [apply mem_getSession|]. }
    rewrite (resolveActor_session st _ _ Hs).
    destruct (find _ (users st)) as [actor|] eqn:Hu; last first.
    { by destruct (admin_no_user req st st st _ session Hc) as [-> ->];
        [apply mem_getSession | apply mem_getUser |]. }
    destruct (requireRole actor "admin") eqn:Hr; last first.
    { by destruct (admin_wrong_role req st st st _ session actor Hc) as [-> ->];
        [apply mem_getSession | apply mem_getUser | |]. }
    rewrite (admin_accounts_granted req st _ _ _ Hc Hs Hu Hr).
    rewrite (admin_reset_password_granted req st _ _ _ Hc Hs Hu Hr).
    split; [|done].
    destruct (truthy_field (body req !! "username")) as [username|];
      [|simpl; set_solver].
    destruct (truthy_field (body req !! "newPassword")) as [newPassword|];
      [|destruct username; simpl; set_solver].
    destruct username as [| | |username| |]; try (simpl; set_solver).
    destruct (find (has_username username) (users st)); [|simpl; set_solver].
    destruct newPassword; simpl; set_solver.
Qed.

(** C10: on both admin routes, a session cookie that names a stored
    session whose user is not in the store is answered 403 "Access
    denied", as a wrong role is, not 401. *)
Theorem admin_session_without_user `{!Bcrypt} {St : Type} `{!Storage St}
    `{!UntypedStorage St} (req : Request) (st : St) (sessionId : string) (session : Session.t) :
  truthy (cookies req !! "sessionId") = Some sessionId →
  getSession sessionId st = (st, Return (Some session)) →
  getUser (Session.userId session) st = (st, Return None) →
  admin_reset_password req st = (st, res_status 403 (JMessage "Access denied")) ∧
  admin_accounts req st = (st, res_status 403 (JMessage "Access denied")).
Proof.
  intros Hcookie Hsession Huser.
  unfold admin_reset_password, admin_accounts, try_catch,
    admin_reset_password_try, admin_accounts_try, bind.
  rewrite Hcookie, Hsession, Huser. by split.
Qed.

Lemma admin_session_without_user_witness :
  let req := Demo.admin_request "session-1" ∅ in
  @admin_reset_password Demo.bcrypt Store MemStorage MemUntyped req Demo.store =
    (Demo.store, res_status 403 (JMessage "Access denied")) ∧
  @admin_accounts Store MemStorage req Demo.store =
    (Demo.store, res_status 403 (JMessage "Access denied")).
Proof.
  intros req.
  apply (@admin_session_without_user Demo.bcrypt Store MemStorage MemUntyped
           req Demo.store "session-1" Demo.ghost);
    reflexivity.
Defined.

(** The three roles of the small installation at the gate of the listing:
    "Admin" passes, "Staff" and a request without cookie do not. *)
Example gate_by_role :
  status (@admin_accounts Store MemStorage
            (Demo.admin_request "session-0" ∅) Demo.store).2 = 200%nat ∧
  status (@admin_accounts Store MemStorage
            (Demo.admin_request "session-2" ∅) Demo.store).2 = 403%nat ∧
  status (@admin_accounts Store MemStorage
            (Demo.admin_request "session-7" ∅) Demo.store).2 = 401%nat ∧
  status (@admin_accounts Store MemStorage
            {| cookies := ∅; body := ∅ |} Demo.store).2 = 401%nat.
Proof. by repeat split. Qed.

(** ** Lockout over several attempts *)

(** C9: the end of a cooldown does not touch the failure counter.  A user
    locked by a wrong password keeps a counter of 3 or more; at the first
    attempt after the end of the cooldown a wrong password locks the user
    again at once, with a cooldown of the clock plus five minutes and the
    counter one higher, and only the correct password puts the counter
    back to 0. *)
Theorem cooldown_expiry_keeps_counter `{!Bcrypt} `{!Schema}
    (env1 env2 : Env) (req1 req2 : Request) (st : Store)
    (username password1 password2 : string) (user : User.t) :
  loginSchema_parse (body req1) = inr (username, password1) →
  loginSchema_parse (body req2) = inr (username, password2) →
  getUserByUsername username st = (st, Return (Some user)) →
  (∀ until, User.cooldownUntil user = Some until → until ≤ new_Date env1) →
  (2 ≤ User.loginAttempts user)%nat →
  bcrypt_compare password1 (User.password user) = false →
  Date_now_lock env1 + 5 * 60 * 1000 ≤ new_Date env2 →
  ∃ st1 resp1 st2 resp2 user1 user2,
    login env1 req1 st = (st1, resp1) ∧
    login env2 req2 st1 = (st2, resp2) ∧
    getUserByUsername username st1 = (st1, Return (Some user1)) ∧
    getUserByUsername username st2 = (st2, Return (Some user2)) ∧
    (* the lock *)
    status resp1 = 429%nat ∧
    User.cooldownUntil user1 = Some (Date_now_lock env1 + 5 * 60 * 1000) ∧
    (3 ≤ User.loginAttempts user1)%nat ∧
    (* the first attempt after its end *)
    if bcrypt_compare password2 (User.password user) then
      status resp2 = 200%nat ∧ User.loginAttempts user2 = 0%nat
    else
      resp2 = res_status 429
                (JCooldown "Too many failed attempts. Account locked for 5 minutes."
                           (Date_now_lock env2 + 5 * 60 * 1000)) ∧
      User.cooldownUntil user2 = Some (Date_now_lock env2 + 5 * 60 * 1000) ∧
      User.loginAttempts user2 = S (User.loginAttempts user1).
Proof.
  intros Hparse1 Hparse2 Hfind Hcool1 Hn Hcmp1 Hlate.
  apply mem_getUserByUsername in Hfind. apply active_cooldown_None in Hcool1.
  pose proof (login_invalid env1 req1 st _ _ _ Hparse1 Hfind Hcool1 Hcmp1) as Hrun1.
  cbv zeta in Hrun1.
  destruct (Nat.leb_spec 2 (User.loginAttempts user)) as [_|?]; [|lia].
  set (user1 := with_cooldownUntil (Some (Date_now_lock env1 + 300000))
                  (with_loginAttempts (S (User.loginAttempts user)) user)).
  match type of Hrun1 with _ = (?s, _) => set (st1 := s) in * end.
  assert (find (has_username username) (users st1) = Some user1) as Hfind1.
  { subst st1. by rewrite !find_update_user, Hfind by done. }
  assert (active_cooldown env2 user1 = None) as Hcool2.
  { apply active_cooldown_None. intros d [= <-]. lia. }
  destruct (bcrypt_compare password2 (User.password user)) eqn:Hcmp2.
  - pose proof (login_valid env2 req2 st1 _ _ _ Hparse2 Hfind1 Hcool2 Hcmp2) as Hrun2.
    cbv zeta in Hrun2.
    eexists _, _, _, _, _, _. split; [exact Hrun1|]. split; [exact Hrun2|].
    rewrite !mem_getUserByUsername. split; [exact Hfind1|].
    rewrite find_logged_in, Hfind1. simpl.
    repeat split; try reflexivity; lia.
  - pose proof (login_invalid env2 req2 st1 _ _ _ Hparse2 Hfind1 Hcool2 Hcmp2) as Hrun2.
    cbv zeta in Hrun2.
    destruct (Nat.leb_spec 2 (User.loginAttempts user1)) as [_|Hlt];
      [|simpl in Hlt; lia].
    eexists _, _, _, _, _, _. split; [exact Hrun1|]. split; [exact Hrun2|].
    rewrite !mem_getUserByUsername. split; [exact Hfind1|].
    rewrite !find_update_user, Hfind1 by done. simpl.
    repeat split; try reflexivity; lia.
Qed.

Lemma cooldown_expiry_keeps_counter_witness :
  let env1 := Demo.at_time 1000 in
  let env2 := Demo.at_time 301000 in
  let req := Demo.login_request "alice" "guess" in
  ∃ st1 resp1 st2 resp2 user1 user2,
    @login Demo.bcrypt Demo.schema Store MemStorage env1 req Demo.store = (st1, resp1) ∧
    @login Demo.bcrypt Demo.schema Store MemStorage env2 req st1 = (st2, resp2) ∧
    getUserByUsername "alice" st1 = (st1, Return (Some user1)) ∧
    getUserByUsername "alice" st2 = (st2, Return (Some user2)) ∧
    status resp1 = 429%nat ∧
    User.cooldownUntil user1 = Some 301000 ∧
    (3 ≤ User.loginAttempts user1)%nat ∧
    resp2 = res_status 429
              (JCooldown "Too many failed attempts. Account locked for 5 minutes." 601000) ∧
    User.cooldownUntil user2 = Some 601000 ∧
    User.loginAttempts user2 = S (User.loginAttempts user1).
Proof.
  intros env1 env2 req.
  apply (@cooldown_expiry_keeps_counter Demo.bcrypt Demo.schema env1 env2 req req
           Demo.store "alice" "guess" "guess" Demo.alice);
    [reflexivity | reflexivity | reflexivity | intros d [=] | simpl; lia
    | reflexivity | simpl; lia].
Defined.

(** Three wrong passwords in a row and a fourth attempt during the
    cooldown, with the right password: 401, 401, 429 with the end of the
    cooldown, 429 with the seconds that remain. *)
Example three_strikes :
  (@logins Demo.bcrypt Demo.schema Store MemStorage
     [(Demo.at_time 1000, Demo.login_request "root" "guess");
      (Demo.at_time 2000, Demo.login_request "root" "admin");
      (Demo.at_time 3000, Demo.login_request "root" "12345");
      (Demo.at_time 4000, Demo.login_request "root" "toor")]
     Demo.store).2
  = [res_status 401 (JMessage "Invalid credentials");
     res_status 401 (JMessage "Invalid credentials");
     res_status 429
       (JCooldown "Too many failed attempts. Account locked for 5 minutes." 303000);
     res_status 429 (JRemaining "Account temporarily locked. Try again later." 299)].
Proof. reflexivity. Qed.

(** ** Faults of the store *)

(** C6: a malformed body is to be answered 400 with the validation
    failures and a fault of the store 500.  The login handler does not tell
    them apart: a well-formed login while the store is out of service is
    answered 400 "Invalid request data", the very answer given to a body
    without its fields, which lists no failure; the admin routes answer the
    same fault with 500. *)
Theorem login_store_fault_answered_400 :
  let env := Demo.at_time 1000 in
  let well_formed := Demo.login_request "alice" "wonderland" in
  let malformed := {| cookies := ∅; body := ∅ |} in
  @login Demo.bcrypt Demo.schema unit DownStorage env well_formed () =
    ((), res_status 400 (JMessage "Invalid request data")) ∧
  (@login Demo.bcrypt Demo.schema Store MemStorage env malformed Demo.store).2 =
    res_status 400 (JMessage "Invalid request data") ∧
  (@admin_reset_password Demo.bcrypt unit DownStorage DownUntyped
     (Demo.admin_request "session-0" ∅) ()).2 =
    res_status 500 (JMessage "Server error").
Proof.
  intros env well_formed malformed. split; [|split].
  - by apply (@login_lookup_throws Demo.bcrypt Demo.schema unit DownStorage
                env well_formed () () "alice" "wonderland"
                (StoreError "connection refused")).
  - by rewrite (@login_malformed Demo.bcrypt Demo.schema Store MemStorage
                  env malformed Demo.store
                  (ZodError ["username and password are required"])).
  - by destruct (@admin_session_throws Demo.bcrypt unit DownStorage DownUntyped
                   (Demo.admin_request "session-0" ∅) () () "session-0"
                   (StoreError "connection refused") eq_refl eq_refl) as [-> _].
Qed.

(** * More of the code: the other routes, the front server, the client *)

(** ** What the login route answers, on any storage *)

(** A number that is not in a list of numbers. *)
Ltac refute_elem H :=
  simpl in H;
  repeat (apply elem_of_cons in H as [H|H]; [discriminate H|]);
  apply not_elem_of_nil in H.

Section LoginAnswers.
Context `{!Bcrypt} `{!Schema} {St : Type} `{!Storage St}.

(** X1: whatever the storage does, the login route answers 200, 400, 401
    or 429; it sets a cookie exactly when it answers 200, and that cookie
    is [sessionId] with the id of the session sent in the body, http-only,
    same-site none, of 24 hours, and secure exactly in production. *)
Theorem login_answers (env : Env) (req : Request) (st : St) :
  let resp := (login env req st).2 in
  status resp ∈ [200; 400; 401; 429]%nat ∧
  match cookie resp with
  | None => status resp ≠ 200%nat
  | Some c =>
    status resp = 200%nat ∧
    (∃ safeUser session,
       json resp = JLogin safeUser session ∧ cookie_value c = Session.id session) ∧
    cookie_name c = "sessionId" ∧
    httpOnly c = true ∧
    sameSite c = "none" ∧
    maxAge c = 86400000 ∧
    (secure c = true ↔ NODE_ENV env = Some "production")
  end.
Proof.
  unfold login, try_catch, login_try, bind.
  destruct (loginSchema_parse (body req)) as [e|[username password]]; simpl.
  { split; [set_solver | done]. }
  destruct (getUserByUsername username st) as [st1 [[user|]|e]]; simpl;
    [|split; [set_solver | done]..].
  destruct (active_cooldown env user); simpl; [split; [set_solver | done]|].
  destruct (bcrypt_compare password (User.password user)); simpl.
  - destruct (resetLoginAttempts username st1) as [st2 [[]|e]]; simpl;
      [|split; [set_solver | done]].
    destruct (createSession (User.id user) st2) as [st3 [session|e]]; simpl;
      [|split; [set_solver | done]].
    split; [set_solver|]. split; [done|]. split; [by eexists _, _|].
    repeat split; try done.
    + by intros ?%bool_decide_eq_true.
    + by intros ?; apply bool_decide_eq_true.
  - destruct (incrementLoginAttempts username st1) as [st2 [[]|e]]; simpl;
      [|split; [set_solver | done]].
    destruct (or_zero (User.loginAttempts user)) as [|[|n]]; simpl;
      [split; [set_solver | done]..|].
    destruct (setCooldown username _ st2) as [st3 [[]|e]]; simpl;
      split; (set_solver || done).
Qed.
End LoginAnswers.

(** ** The calls the login route makes *)

Section LoginProtocol.
Context `{!Bcrypt} `{!Schema} {St : Type} `{!Storage St}.

(** X2: the login route, run on any storage with its calls noted, ends in
    the same store with the same answer, and its calls are: none for a
    malformed body; otherwise the look-up of the user, then at most one of
    the two runs [incrementLoginAttempts], [setCooldown] (to the clock plus
    five minutes) and [resetLoginAttempts], [createSession], all for the
    user name of the request.  An answer 200 has made all three calls of
    the second run. *)
Theorem login_protocol (env : Env) (req : Request) (st : St) :
  ∃ calls,
    @login _ _ _ Traced env req (st, [])
    = (((login env req st).1, calls), (login env req st).2) ∧
    match loginSchema_parse (body req) with
    | inl _ => calls = []
    | inr (username, _) =>
      (calls = [GetUserByUsername username] ∨
       calls = [GetUserByUsername username; IncrementLoginAttempts username] ∨
       calls = [GetUserByUsername username; IncrementLoginAttempts username;
                SetCooldown username (Date_now_lock env + 5 * 60 * 1000)] ∨
       calls = [GetUserByUsername username; ResetLoginAttempts username] ∨
       ∃ userId,
         calls = [GetUserByUsername username; ResetLoginAttempts username;
                  CreateSession userId]) ∧
      (status (login env req st).2 = 200%nat →
       ∃ userId,
         calls = [GetUserByUsername username; ResetLoginAttempts username;
                  CreateSession userId])
    end.
Proof.
  unfold login, try_catch, login_try, bind.
  destruct (loginSchema_parse (body req)) as [e|[username password]]; simpl.
  { by eexists. }
  unfold traced.
  destruct (getUserByUsername username st) as [st1 [[user|]|e]]; simpl;
    [|eexists; split; [done|]; split; [by left | done]..].
  destruct (active_cooldown env user); simpl;
    [eexists; split; [done|]; split; [by left | done]|].
  destruct (bcrypt_compare password (User.password user)); simpl.
  - destruct (resetLoginAttempts username st1) as [st2 [[]|e]]; simpl;
      [|eexists; split; [done|]; split; [by right; right; right; left | done]].
    destruct (createSession (User.id user) st2) as [st3 [session|e]]; simpl;
      eexists; (split; [done|]); (split; [right; right; right; right|]);
        try (by eexists); done.
  - destruct (incrementLoginAttempts username st1) as [st2 [[]|e]]; simpl;
      [|eexists; split; [done|]; split; [by right; left | done]].
    destruct (or_zero (User.loginAttempts user)) as [|[|n]]; simpl;
      [eexists; split; [done|]; split; [by right; left | done]..|].
    destruct (setCooldown username _ st2) as [st3 [[]|e]]; simpl;
      eexists; (split; [done|]); (split; [by right; right; left | done]).
Qed.
End LoginProtocol.

(** ** The admin routes, on any storage *)

Section AdminAnyStorage.
Context `{!Bcrypt} {St : Type} `{!Storage St} `{!UntypedStorage St}.

(** X3: the gate comes before the body.  When the reset route refuses a
    request with 401 or 403, any other request with the same cookies is
    refused in the same way, whatever its body: a caller who is not an
    admin learns nothing about the user names of the store. *)
Theorem admin_refusal_ignores_body (req1 req2 : Request) (st : St) :
  cookies req1 = cookies req2 →
  status (admin_reset_password req1 st).2 ∈ [401; 403]%nat →
  admin_reset_password req2 st = admin_reset_password req1 st.
Proof.
  intros Hcookies.
  unfold admin_reset_password, try_catch, admin_reset_password_try, bind.
  rewrite Hcookies.
  destruct (truthy (cookies req2 !! "sessionId")) as [sessionId|]; [|done].
  destruct (getSession sessionId st) as [st1 [[session|]|e]]; [|done..].
  destruct (getUser (Session.userId session) st1) as [st2 [[actor|]|e]]; [|done..].
  destruct (negb (toLowerCase (User.role actor) =? "admin")%string); [done|].
  intros Hstatus. exfalso.
  destruct (truthy_field (body req1 !! "username")) as [username|];
    [|by refute_elem Hstatus].
  destruct (truthy_field (body req1 !! "newPassword")) as [newPassword|];
    [|by refute_elem Hstatus].
  destruct (getUserByUsername_json username st2) as [st3 [[staff|]|e]];
    [|by refute_elem Hstatus..].
  destruct (bcrypt_hash_json newPassword 10) as [e|hashed];
    [by refute_elem Hstatus|]. simpl in Hstatus.
  destruct (updateUserPassword_json username hashed st3) as [st4 [[]|e]];
    by refute_elem Hstatus.
Qed.

(** X4: the listing route only reads.  Its calls, on any storage, are the
    look-up of the session of the cookie, then of the user of that session,
    then of all users, up to the first that fails or refuses; it answers
    200, 401, 403 or 500 and sets no cookie. *)
Theorem admin_accounts_protocol (req : Request) (st : St) :
  ∃ calls,
    @admin_accounts _ Traced req (st, [])
    = (((admin_accounts req st).1, calls), (admin_accounts req st).2) ∧
    Forall (λ c, reads c = true) calls ∧
    (calls = [] ∨
     ∃ sessionId, cookies req !! "sessionId" = Some sessionId ∧
       (calls = [GetSession sessionId] ∨
        ∃ userId,
          calls = [GetSession sessionId; GetUser userId] ∨
          calls = [GetSession sessionId; GetUser userId; GetAllUsers])) ∧
    status (admin_accounts req st).2 ∈ [200; 401; 403; 500]%nat ∧
    cookie (admin_accounts req st).2 = None.
Proof.
  unfold admin_accounts, try_catch, admin_accounts_try, bind.
  destruct (truthy (cookies req !! "sessionId")) as [sessionId|] eqn:Hc; simpl.
  2: { eexists. split; [done|]. split; [done|]. split; [by left|].
       split; [set_solver | done]. }
  apply truthy_Some in Hc as [Hc _]. unfold traced.
  destruct (getSession sessionId st) as [st1 [[session|]|e]]; simpl.
  2,3: eexists; split; [done|]; split; [by repeat constructor|];
       (split; [right; exists sessionId; split; [done | by left]|]);
       split; [set_solver | done].
  destruct (getUser (Session.userId session) st1) as [st2 [[actor|]|e]]; simpl.
  2,3: eexists; split; [done|]; split; [by repeat constructor|];
       (split; [right; exists sessionId; split; [done|]; right; eexists; by left|]);
       split; [set_solver | done].
  destruct (negb (toLowerCase (User.role actor) =? "admin")%string); simpl.
  { eexists; split; [done|]; split; [by repeat constructor|].
    split; [right; exists sessionId; split; [done|]; right; eexists; by left|].
    split; [set_solver | done]. }
  destruct (getAllUsers st2) as [st3 [allUsers|e]]; simpl;
    eexists; (split; [done|]); (split; [by repeat constructor|]);
    (split; [right; exists sessionId; split; [done|]; right; eexists; by right|]);
    split; (set_solver || done).
Qed.

(** With the calls noted, the look-up and the write for a value of the
    body are the same look-up and write, with one call more in the
    journal. *)
Lemma traced_getUserByUsername_json (name : JsonValue) (st : St) (journal : list call) :
  @getUserByUsername_json _ Traced TracedUntyped name (st, journal)
  = (((getUserByUsername_json name st).1, journal ++ [lookup_call name]),
     (getUserByUsername_json name st).2).
Proof.
  destruct name; simpl; unfold traced;
    by match goal with
       | |- context [match ?x with (_, _) => _ end] => destruct x
       end.
Qed.

Lemma traced_updateUserPassword_json (name : JsonValue) (hashed : string) (st : St)
    (journal : list call) :
  @updateUserPassword_json _ Traced TracedUntyped name hashed (st, journal)
  = (((updateUserPassword_json name hashed st).1,
      journal ++ [write_call name hashed]),
     (updateUserPassword_json name hashed st).2).
Proof.
  destruct name; simpl; unfold traced;
    by match goal with
       | |- context [match ?x with (_, _) => _ end] => destruct x
       end.
Qed.

(** X5: the reset route writes once, at the end.  Its calls, on any
    storage, are a beginning of: the session of the cookie, the user of
    that session, the user named in the body, and [updateUserPassword] for
    that name with the [bcrypt] hash, at cost 10, of the [newPassword]
    field, which is then a string.  An answer 200 has made all four
    calls. *)
Theorem admin_reset_password_protocol (req : Request) (st : St) :
  ∃ calls,
    @admin_reset_password _ _ Traced TracedUntyped req (st, [])
    = (((admin_reset_password req st).1, calls), (admin_reset_password req st).2) ∧
    (∀ c, c ∈ calls → reads c = false →
       ∃ (username : JsonValue) (newPassword : string),
         body req !! "username" = Some username ∧
         body req !! "newPassword" = Some (JsonString newPassword) ∧
         c = write_call username (bcrypt_hash newPassword 10) ∧
         last calls = Some c ∧
         length calls = 4%nat) ∧
    (length calls ≤ 4)%nat ∧
    (status (admin_reset_password req st).2 = 200%nat → length calls = 4%nat).
Proof.
  unfold admin_reset_password, try_catch, admin_reset_password_try, bind.
  destruct (truthy (cookies req !! "sessionId")) as [sessionId|] eqn:Hc; simpl.
  2: { eexists. split; [done|]. split; [by intros c ?%not_elem_of_nil|].
       split; [simpl; lia | done]. }
  unfold traced.
  assert (∀ l : list call, Forall (λ c, reads c = true) l →
            ∀ c, c ∈ l → reads c = false →
              ∃ (username : JsonValue) (newPassword : string),
                body req !! "username" = Some username ∧
                body req !! "newPassword" = Some (JsonString newPassword) ∧
                c = write_call username (bcrypt_hash newPassword 10) ∧
                last l = Some c ∧ length l = 4%nat) as Hreads.
  { intros l Hl c Hc' Hw. rewrite Forall_forall in Hl.
    specialize (Hl c Hc'). congruence. }
  destruct (getSession sessionId st) as [st1 [[session|]|e]]; simpl.
  2,3: eexists; split; [done|];
       split; [apply Hreads; by repeat constructor|]; split; [simpl; lia | done].
  destruct (getUser (Session.userId session) st1) as [st2 [[actor|]|e]]; simpl.
  2,3: eexists; split; [done|];
       split; [apply Hreads; by repeat constructor|]; split; [simpl; lia | done].
  destruct (negb (toLowerCase (User.role actor) =? "admin")%string); simpl.
  { eexists; split; [done|].
    split; [apply Hreads; by repeat constructor|]. split; [simpl; lia | done]. }
  destruct (truthy_field (body req !! "username")) as [username|] eqn:Hname; simpl.
  2: { eexists; split; [done|].
       split; [apply Hreads; by repeat constructor|]. split; [simpl; lia | done]. }
  destruct (truthy_field (body req !! "newPassword")) as [newPassword|] eqn:Hnew;
    simpl.
  2: { eexists; split; [done|].
       split; [apply Hreads; by repeat constructor|]. split; [simpl; lia | done]. }
  apply truthy_field_Some in Hname as [Hname _].
  apply truthy_field_Some in Hnew as [Hnew _].
  assert (reads (lookup_call username) = true) as Hlookup by by destruct username.
  rewrite traced_getUserByUsername_json. cbn [app].
  destruct (getUserByUsername_json username st2) as [st3 [[staff|]|e]]; simpl.
  2,3: eexists; split; [done|];
       split; [apply Hreads; repeat constructor; done|]; split; [simpl; lia | done].
  destruct newPassword as [| | |newPassword| |]; simpl;
    try (eexists; split; [done|];
         split; [apply Hreads; repeat constructor; done|];
         split; [simpl; lia | done]).
  rewrite traced_updateUserPassword_json. cbn [app].
  assert (∀ c, c ∈ [GetSession sessionId; GetUser (Session.userId session);
                    lookup_call username;
                    write_call username (bcrypt_hash newPassword 10)] →
               reads c = false →
               c = write_call username (bcrypt_hash newPassword 10)) as Hlast.
  { intros c Hin Hw.
    apply elem_of_cons in Hin as [->|Hin]; [done|].
    apply elem_of_cons in Hin as [->|Hin]; [done|].
    apply elem_of_cons in Hin as [->|Hin]; [congruence|].
    apply elem_of_cons in Hin as [->|Hin]; [done|].
    by apply not_elem_of_nil in Hin. }
  destruct (updateUserPassword_json username _ st3) as [st4 [[]|e]]; simpl;
    eexists; (split; [done|]);
    (split; [intros c Hin Hw; apply Hlast in Hin as ->; [|done];
             by exists username, newPassword|]);
    split; ((simpl; lia) || done).
Qed.
End AdminAnyStorage.

Lemma admin_refusal_ignores_body_witness :
  let req1 := Demo.admin_request "session-2"
                {[ "username" := JsonString "carol"; "newPassword" := JsonString "plugh" ]} in
  let req2 := Demo.admin_request "session-2" {[ "username" := JsonString "nobody" ]} in
  @admin_reset_password Demo.bcrypt Store MemStorage MemUntyped req2 Demo.store =
  @admin_reset_password Demo.bcrypt Store MemStorage MemUntyped req1 Demo.store.
Proof.
  intros req1 req2.
  apply (@admin_refusal_ignores_body Demo.bcrypt Store MemStorage MemUntyped
           req1 req2 Demo.store);
    [reflexivity | apply list_elem_of_further, list_elem_of_here].
Defined.

(** ** The register route, on any storage *)

Section RegisterAnyStorage.
Context `{!RegisterSchema} {St : Type} `{!Registration St}.

(** X6: the register route answers 201, 400 or 409 and never 500.  It
    answers 201 with a user exactly when the schema accepts the body and
    [registerUser] returns; 409 exactly when what was thrown is an error,
    not of the schema, whose message is "Username already exists", and the
    body is then that message; errors of the schema are answered 400 with
    their list, all others 400 "Invalid request". *)
Theorem register_answers (req : Request) (st : St) :
  let resp := (register req st).2 in
  let thrown :=
    match registerSchema_parse (body req) with
    | inl e => Some e
    | inr userData =>
      match registerUser (delete "confirmPassword" userData) st with
      | (_, Throw e) => Some e
      | (_, Return _) => None
      end
    end in
  match thrown with
  | None => register_status resp = 201%nat ∧ ∃ user, register_json resp = RUser user
  | Some (ZodError errors) =>
    resp = {| register_status := 400;
              register_json := RErrors "Invalid request data" errors |}
  | Some (StoreError message) =>
    if decide (message = "Username already exists")
    then resp = {| register_status := 409; register_json := RMessage message |}
    else resp = {| register_status := 400;
                   register_json := RMessage "Invalid request" |}
  end.
Proof.
  unfold register, try_catch, register_try, bind.
  destruct (registerSchema_parse (body req)) as [e|userData]; simpl.
  - destruct e as [errors|message]; [done|].
    destruct (String.eqb_spec message "Username already exists");
      by case_decide.
  - destruct (registerUser (delete "confirmPassword" userData) st)
      as [st1 [user|e]]; simpl; [by eauto|].
    destruct e as [errors|message]; [done|].
    destruct (String.eqb_spec message "Username already exists");
      by case_decide.
Qed.

(** X7: a user answered by the register route is the record that
    [registerUser] returned for the body less its [confirmPassword] field,
    with its [password] field taken out and every other field kept. *)
Theorem register_user_sanitized (req : Request) (st st' : St) (safeUser : jsobj)
    (status : nat) :
  register req st = (st', {| register_status := status;
                             register_json := RUser safeUser |}) →
  ∃ userData user,
    registerSchema_parse (body req) = inr userData ∧
    registerUser (delete "confirmPassword" userData) st = (st', Return user) ∧
    status = 201%nat ∧
    safeUser !! "password" = None ∧
    ∀ field, field ≠ "password" → safeUser !! field = User.object user !! field.
Proof.
  unfold register, try_catch, register_try, bind.
  destruct (registerSchema_parse (body req)) as [e|userData]; simpl.
  { destruct e as [errors|message]; [done|].
    by destruct (message =? "Username already exists")%string. }
  destruct (registerUser (delete "confirmPassword" userData) st)
    as [st1 [user|e]] eqn:Hreg; simpl.
  - intros [= <- <- <-]. exists userData, user.
    split; [done|]. split; [done|]. split; [done|].
    split; [apply lookup_delete_eq|].
    intros field Hfield. by apply lookup_delete_ne.
  - destruct e as [errors|message]; [done|].
    by destruct (message =? "Username already exists")%string.
Qed.

(** X8: the [confirmPassword] field stops at the route.  Two bodies whose
    accepted fields differ only in [confirmPassword] have the same effect
    on the store and the same answer. *)
Theorem register_ignores_confirmPassword (req1 req2 : Request) (st : St)
    (userData1 userData2 : gmap string JsonValue) :
  registerSchema_parse (body req1) = inr userData1 →
  registerSchema_parse (body req2) = inr userData2 →
  (∀ field, field ≠ "confirmPassword" → userData1 !! field = userData2 !! field) →
  register req1 st = register req2 st.
Proof.
  intros Hparse1 Hparse2 Hsame.
  unfold register, try_catch, register_try, bind.
  rewrite Hparse1, Hparse2. simpl.
  replace (delete "confirmPassword" userData1)
    with (delete "confirmPassword" userData2); [done|].
  apply map_eq. intros field.
  destruct (decide (field = "confirmPassword")) as [->|Hne].
  - by rewrite !lookup_delete_eq.
  - by rewrite !lookup_delete_ne, Hsame.
Qed.
End RegisterAnyStorage.

(** ** The account listing as a function of the users *)

(** X10: the listing leaves out nobody it should show.  Every user whose
    role is "staff" or "supplier", letter case apart, has a record in it;
    the records come in the order of the users, those of a first part of
    the users before those of the rest; and there are no more records than
    users. *)
Theorem accounts_listing_complete (allUsers : list User.t) :
  (∀ u, u ∈ allUsers →
        toLowerCase (User.role u) ∈ ["staff"; "supplier"] →
        omit_password (User.object u) ∈ sanitized allUsers) ∧
  (∀ first rest, allUsers = first ++ rest →
                 sanitized allUsers = sanitized first ++ sanitized rest) ∧
  (length (sanitized allUsers) ≤ length allUsers)%nat.
Proof.
  split; [|split].
  - intros u Hin Hrole. apply sanitized_spec. by exists u.
  - intros first rest ->. unfold sanitized.
    by rewrite List.filter_app, List.map_app.
  - unfold sanitized. rewrite length_map. apply List.filter_length_le.
Qed.

(** ** Logins in a row, on the in-memory store *)

Section LoginsOnMemStorage.
Context `{!Bcrypt} `{!Schema}.
Implicit Types (env : Env) (req : Request) (st : Store) (user : User.t).

Lemma identity_update_user name f st :
  (∀ u, identity (f u) = identity u) →
  List.map identity (users (update_user name f st)) = List.map identity (users st).
Proof.
  intros Hf. unfold update_user. cbn [users]. rewrite List.map_map.
  apply List.map_ext. intros u. by destruct (has_username name u).
Qed.

(** The store after a login, in each of its branches. *)
Lemma login_store env req st :
  let st' := (login env req st).1 in
  st' = st ∨
  (∃ username,
     st' = update_user username (λ u, with_loginAttempts (S (User.loginAttempts u)) u) st) ∨
  (∃ username until,
     st' = update_user username (with_cooldownUntil (Some until))
             (update_user username
                (λ u, with_loginAttempts (S (User.loginAttempts u)) u) st)) ∨
  (∃ username session, st' = logged_in username session st).
Proof.
  destruct (loginSchema_parse (body req)) as [e|[username password]] eqn:Hparse.
  { left. by rewrite (login_malformed env req st e Hparse). }
  destruct (find (has_username username) (users st)) as [user|] eqn:Hfind; last first.
  { left. apply mem_getUserByUsername in Hfind.
    by rewrite (login_unknown env req st st _ _ Hparse Hfind). }
  destruct (active_cooldown env user) as [d|] eqn:Hcool.
  { left. apply mem_getUserByUsername in Hfind.
    by rewrite (login_cooling env req st st _ _ _ _ Hparse Hfind Hcool). }
  destruct (bcrypt_compare password (User.password user)) eqn:Hcmp.
  - right; right; right.
    rewrite (login_valid env req st _ _ _ Hparse Hfind Hcool Hcmp). by eexists _, _.
  - rewrite (login_invalid env req st _ _ _ Hparse Hfind Hcool Hcmp). cbv zeta.
    destruct (2 <=? User.loginAttempts user)%nat.
    + right; right; left. by eexists _, _.
    + right; left. by eexists.
Qed.

(** X11: logins touch nothing but counters, cooldowns and sessions.  After
    any sequence of login requests, the users of the store are the same in
    number and order, each with the id, the user name, the password hash
    and the role it had. *)
Theorem logins_preserve_identity (attempts : list (Env * Request)) st :
  List.map identity (users (logins attempts st).1) = List.map identity (users st).
Proof.
  revert st. induction attempts as [|[env req] attempts IH]; intros st; [done|].
  simpl. destruct (login env req st) as [st1 resp] eqn:Hrun.
  specialize (IH st1). destruct (logins attempts st1) as [st2 resps]. simpl in *.
  rewrite IH.
  pose proof (login_store env req st) as Hst. rewrite Hrun in Hst. simpl in Hst.
  destruct Hst as [->|[(username & ->)|[(username & d & ->)|(username & session & ->)]]].
  - done.
  - by apply identity_update_user.
  - by rewrite !identity_update_user.
  - unfold logged_in. cbn [users]. by apply identity_update_user.
Qed.

(** X12: past the threshold, wrong passwords only meet 429.  For a user
    whose counter is 2 or more, every request of any sequence of logins
    with wrong passwords, at any instants, is answered 429, and the counter
    is no lower afterwards. *)
Theorem lockout_persists (attempts : list (Env * Request)) st
    (username : string) user :
  getUserByUsername username st = (st, Return (Some user)) →
  (2 ≤ User.loginAttempts user)%nat →
  Forall (λ attempt,
            ∃ password,
              loginSchema_parse (body attempt.2) = inr (username, password) ∧
              bcrypt_compare password (User.password user) = false) attempts →
  Forall (λ resp, status resp = 429%nat) (logins attempts st).2 ∧
  ∃ user',
    getUserByUsername username (logins attempts st).1
    = ((logins attempts st).1, Return (Some user')) ∧
    (User.loginAttempts user ≤ User.loginAttempts user')%nat.
Proof.
  revert st user.
  induction attempts as [|[env req] attempts IH]; intros st user Hget Hn Hall.
  { split; [done|]. exists user. by split. }
  apply Forall_cons in Hall as [(password & Hparse & Hcmp) Hall]. simpl in Hparse.
  apply mem_getUserByUsername in Hget.
  simpl. destruct (login env req st) as [st1 resp] eqn:Hrun.
  assert (status resp = 429%nat ∧
          ∃ user1, find (has_username username) (users st1) = Some user1 ∧
                   User.password user1 = User.password user ∧
                   (User.loginAttempts user ≤ User.loginAttempts user1)%nat)
    as (Hresp & user1 & Hget1 & Hpw & Hn1).
  { destruct (active_cooldown env user) as [d|] eqn:Hcool.
    - assert (getUserByUsername username st = (st, Return (Some user))) as Hget'
        by by apply mem_getUserByUsername.
      rewrite (login_cooling env req st st _ _ _ _ Hparse Hget' Hcool) in Hrun.
      injection Hrun as <- <-. split; [done|]. by exists user.
    - rewrite (login_invalid env req st _ _ _ Hparse Hget Hcool Hcmp) in Hrun.
      cbv zeta in Hrun.
      destruct (Nat.leb_spec 2 (User.loginAttempts user)) as [_|?]; [|lia].
      injection Hrun as <- <-. split; [done|].
      eexists. rewrite !find_update_user, Hget by done. simpl.
      split; [done|]. split; [done|]. simpl. lia. }
  specialize (IH st1 user1).
  destruct (logins attempts st1) as [st2 resps]. simpl in *.
  destruct IH as (Hresps & user' & Hget' & Hn').
  { by apply mem_getUserByUsername. }
  { lia. }
  { by rewrite Hpw. }
  split; [by constructor|]. exists user'. split; [done | lia].
Qed.
End LoginsOnMemStorage.

Lemma lockout_persists_witness :
  let attempts := [(Demo.at_time 1000, Demo.login_request "alice" "guess");
                   (Demo.at_time 2000, Demo.login_request "alice" "rabbit");
                   (Demo.at_time 400000, Demo.login_request "alice" "hatter")] in
  let run := @logins Demo.bcrypt Demo.schema Store MemStorage attempts Demo.store in
  Forall (λ resp, status resp = 429%nat) run.2 ∧
  ∃ user',
    getUserByUsername "alice" run.1 = (run.1, Return (Some user')) ∧
    (2 ≤ User.loginAttempts user')%nat.
Proof.
  intros attempts run.
  apply (@lockout_persists Demo.bcrypt Demo.schema attempts Demo.store "alice" Demo.alice);
    [reflexivity | simpl; lia | repeat (constructor; [by eexists|]); constructor].
Defined.

(** ** From the login to the admin routes, on the in-memory store *)

Lemma find_map_preserving {A : Type} (p : A → bool) (g : A → A) (l : list A) :
  (∀ x, p (g x) = p x) →
  find p (List.map g l) = g <$> find p l.
Proof.
  intros Hp. induction l as [|x l IH]; [done|]. simpl.
  rewrite Hp. by destruct (p x).
Qed.

Section SessionsOnMemStorage.
Context `{!Bcrypt} `{!Schema}.
Implicit Types (env : Env) (req : Request) (st : Store) (user : User.t).

(** X13: the cookie of a login is the key of the admin routes.  After a
    login answered 200 for a user that its own id finds, the cookie sent
    names a session of that user, with its counter at 0; a request with
    that cookie gets the listing when the role of the user is "admin",
    letter case apart, and 403 on both admin routes otherwise. *)
Theorem login_cookie_at_gate env req st (username password : string) user
    (fields : gmap string JsonValue) :
  loginSchema_parse (body req) = inr (username, password) →
  getUserByUsername username st = (st, Return (Some user)) →
  getUser (User.id user) st = (st, Return (Some user)) →
  (∀ until, User.cooldownUntil user = Some until → until ≤ new_Date env) →
  bcrypt_compare password (User.password user) = true →
  ∃ st' resp c,
    login env req st = (st', resp) ∧
    cookie resp = Some c ∧
    resolveActor (cookie_value c) st' = Some (with_loginAttempts 0 user) ∧
    let req' := {| cookies := {[ cookie_name c := cookie_value c ]};
                   body := fields |} in
    if requireRole user "admin" then
      admin_accounts req' st' = (st', res_json (JAccounts (sanitized (users st'))))
    else
      admin_accounts req' st' = (st', res_status 403 (JMessage "Access denied")) ∧
      admin_reset_password req' st' = (st', res_status 403 (JMessage "Access denied")).
Proof.
  intros Hparse Hfind Hid Hcool Hcmp.
  apply mem_getUserByUsername in Hfind. apply mem_getUser in Hid.
  apply active_cooldown_None in Hcool.
  pose proof (login_valid env req st _ _ _ Hparse Hfind Hcool Hcmp) as Hrun.
  cbv zeta in Hrun.
  set (session := Session.mk ("session-" +:+ pretty (issued st)) (User.id user)) in *.
  set (st' := logged_in username session st) in *.
  assert (has_username username user = true) as Hname
    by by apply find_some in Hfind as [_ ?].
  assert (sessions st' !! Session.id session = Some session) as Hs
    by apply lookup_insert_eq.
  assert (find (λ u, User.id u =? Session.userId session) (users st')
          = Some (with_loginAttempts 0 user)) as Hactor.
  { subst st'. unfold logged_in, update_user. cbn [users Session.userId session].
    rewrite find_map_preserving, Hid; [by simpl; rewrite Hname|].
    intros u. by destruct (has_username username u). }
  eexists _, _, _. split; [exact Hrun|]. split; [done|].
  split. { cbn [cookie_value session_cookie]. by rewrite (resolveActor_session _ _ _ Hs). }
  cbv zeta. cbn [cookie_name cookie_value session_cookie].
  set (req' := {| cookies := _; body := fields |}).
  assert (truthy (cookies req' !! "sessionId") = Some (Session.id session)) as Hc.
  { subst req'. cbn [cookies]. by rewrite lookup_singleton_eq. }
  change (requireRole user "admin")
    with (requireRole (with_loginAttempts 0 user) "admin").
  destruct (requireRole (with_loginAttempts 0 user) "admin") eqn:Hr.
  - by apply (admin_accounts_granted req' st' _ _ _ Hc Hs Hactor).
  - rewrite requireRole_admin in Hr.
    destruct (admin_wrong_role req' st' st' st' _ session
                (with_loginAttempts 0 user) Hc) as [Hreset Haccounts];
      [by apply mem_getSession | by apply mem_getUser | done | by split].
Qed.

(** X14: a password reset by an admin is the password of the next login.
    After a reset answered 200, when [bcrypt] accepts a password against
    its own hash, a login of the user named in the reset with the new
    password is answered 200 as soon as no cooldown holds it back, and a
    login with a password that the new hash refuses is not. *)
Theorem reset_then_login (reset : Request) st st' (resp : Response)
    (username newPassword : string) env :
  admin_reset_password reset st = (st', resp) →
  status resp = 200%nat →
  body reset !! "username" = Some (JsonString username) →
  body reset !! "newPassword" = Some (JsonString newPassword) →
  bcrypt_compare newPassword (bcrypt_hash newPassword 10) = true →
  (∀ user' until,
     getUserByUsername username st' = (st', Return (Some user')) →
     User.cooldownUntil user' = Some until → until ≤ new_Date env) →
  ∀ req password,
    loginSchema_parse (body req) = inr (username, password) →
    if bcrypt_compare password (bcrypt_hash newPassword 10)
    then status (login env req st').2 = 200%nat
    else status (login env req st').2 ∈ [401; 429]%nat.
Proof.
  intros Hrun Hst Hname Hnew Hbcrypt Hcool req password Hparse.
  destruct (admin_reset_password_200 reset st st' resp Hrun Hst)
    as (username0 & newPassword0 & Hname0 & Hnew0 & [target Htarget] & ->).
  rewrite Hname in Hname0. injection Hname0 as <-.
  rewrite Hnew in Hnew0. injection Hnew0 as <-.
  match goal with
  | |- context [login env req ?s] => set (st' := s) in *
  end.
  set (user' := with_loginAttempts 0 (with_password (bcrypt_hash newPassword 10) target)).
  assert (find (has_username username) (users st') = Some user') as Hfind.
  { subst st'. by rewrite find_update_user, Htarget. }
  assert (active_cooldown env user' = None) as Hcool'.
  { apply active_cooldown_None. intros d Hd. apply (Hcool user' d); [|done].
    by apply mem_getUserByUsername. }
  destruct (bcrypt_compare password (bcrypt_hash newPassword 10)) eqn:Hcmp.
  - by rewrite (login_valid env req st' _ _ _ Hparse Hfind Hcool' Hcmp).
  - rewrite (login_invalid env req st' _ _ _ Hparse Hfind Hcool' Hcmp). simpl.
    set_solver.
Qed.
End SessionsOnMemStorage.

Lemma login_cookie_at_gate_witness :
  ∃ st' resp c,
    @login Demo.bcrypt Demo.schema Store MemStorage (Demo.at_time 1000)
           (Demo.login_request "root" "toor") Demo.store = (st', resp) ∧
    cookie resp = Some c ∧
    resolveActor (cookie_value c) st' = Some (with_loginAttempts 0 Demo.root) ∧
    @admin_accounts Store MemStorage
       {| cookies := {[ cookie_name c := cookie_value c ]}; body := ∅ |} st'
    = (st', res_json (JAccounts (sanitized (users st')))).
Proof.
  apply (@login_cookie_at_gate Demo.bcrypt Demo.schema (Demo.at_time 1000)
           (Demo.login_request "root" "toor") Demo.store "root" "toor" Demo.root ∅);
    [reflexivity | reflexivity | reflexivity | intros d [=] | reflexivity].
Defined.

Lemma reset_then_login_witness :
  let reset := Demo.admin_request "session-0"
                 {[ "username" := JsonString "alice"; "newPassword" := JsonString "looking-glass" ]} in
  let st' := (@admin_reset_password Demo.bcrypt Store MemStorage MemUntyped reset Demo.store).1 in
  status (@login Demo.bcrypt Demo.schema Store MemStorage (Demo.at_time 1000)
            (Demo.login_request "alice" "looking-glass") st').2 = 200%nat.
Proof.
  intros reset st'.
  apply (@reset_then_login Demo.bcrypt Demo.schema reset Demo.store st'
           (@admin_reset_password Demo.bcrypt Store MemStorage MemUntyped reset Demo.store).2
           "alice" "looking-glass" (Demo.at_time 1000)
           eq_refl eq_refl eq_refl eq_refl eq_refl)
    with (req := Demo.login_request "alice" "looking-glass")
         (password := "looking-glass");
    [intros user' d [= <-] [=] | reflexivity].
Defined.

(** ** The reset route on the in-memory store *)

Lemma truthy_None (o : option string) : truthy o = None ↔ o = None ∨ o = Some "".
Proof.
  destruct o as [[|c s]|]; simpl; split; try done; auto.
  by intros [|].
Qed.

Lemma map_update_user {A : Type} (h : User.t → A) (name : string)
    (f : User.t → User.t) (st : Store) :
  (∀ u, h (f u) = h u) →
  List.map h (users (update_user name f st)) = List.map h (users st).
Proof.
  intros Hf. unfold update_user. cbn [users]. rewrite List.map_map.
  apply List.map_ext. intros u. by destruct (has_username name u).
Qed.

Section ResetOnMemStorage.
Context `{!Bcrypt}.
Implicit Types (req : Request) (st : Store).

(** The look-up of the user named by a value of the body, on the in-memory
    store. *)
Lemma mem_getUserByUsername_json (name : JsonValue) st :
  getUserByUsername_json name st
  = (st, Return match name with
                | JsonString name => find (has_username name) (users st)
                | _ => None
                end).
Proof. by destruct name. Qed.

(** X15: what the reset route can do to the in-memory store.  It answers
    200, 400, 401, 403, 404 or 500 and sets no cookie; it answers 500 only
    for a new password that is not a string, which [bcrypt.hash] refuses;
    unless it answers 200 the store is as it was; and in every case the
    sessions are as they were and so are the id, the user name and the role
    of every user, in the same order. *)
Theorem admin_reset_password_effect req st :
  let st' := (admin_reset_password req st).1 in
  let resp := (admin_reset_password req st).2 in
  status resp ∈ [200; 400; 401; 403; 404; 500]%nat ∧
  cookie resp = None ∧
  (status resp = 500%nat →
   ∃ v, body req !! "newPassword" = Some v ∧ ∀ s, v ≠ JsonString s) ∧
  (status resp ≠ 200%nat → st' = st) ∧
  sessions st' = sessions st ∧
  List.map (λ u, (User.id u, User.username u, User.role u)) (users st')
  = List.map (λ u, (User.id u, User.username u, User.role u)) (users st).
Proof.
  destruct (truthy (cookies req !! "sessionId")) as [sessionId|] eqn:Hc; last first.
  { destruct (admin_no_cookie req st Hc) as [-> _]. simpl.
    split; [set_solver | done]. }
  destruct (sessions st !! sessionId) as [session|] eqn:Hs; last first.
  { destruct (admin_no_session req st st _ Hc) as [-> _]; [by apply mem_getSession|].
    simpl. split; [set_solver | done]. }
  destruct (find (λ u, User.id u =? Session.userId session) (users st))
    as [actor|] eqn:Hu; last first.
  { destruct (admin_no_user req st st st _ session Hc) as [-> _];
      [by apply mem_getSession | by apply mem_getUser |].
    simpl. split; [set_solver | done]. }
  destruct (requireRole actor "admin") eqn:Hr; last first.
  { destruct (admin_wrong_role req st st st _ session actor Hc) as [-> _];
      [by apply mem_getSession | by apply mem_getUser | done |].
    simpl. split; [set_solver | done]. }
  rewrite (admin_reset_password_granted req st _ _ _ Hc Hs Hu Hr).
  destruct (truthy_field (body req !! "username")) as [username|];
    [|simpl; split; [set_solver | done]].
  destruct (truthy_field (body req !! "newPassword")) as [newPassword|] eqn:Hnew;
    [|destruct username; simpl; split; (set_solver || done)].
  apply truthy_field_Some in Hnew as [Hnew _].
  destruct username as [| | |username| |];
    try (simpl; split; [set_solver | done]).
  destruct (find (has_username username) (users st));
    [|simpl; split; [set_solver | done]].
  destruct newPassword as [| | |newPassword| |];
    cbn [fst snd status res_json res_status cookie];
    (split; [set_solver|]); (split; [done|]);
    (split; [first [done | by intros _; eexists; split; [done|]]|]);
    (split; [done|]); (split; [done|]);
    first [done | by apply map_update_user].
Qed.

(** X16: a field that is falsy counts as missing.  Past the gate, the
    reset route answers 400 exactly when [username] or [newPassword] is
    absent, [null], [false], [0] or the empty string, and 404 exactly when
    both are truthy and the look-up of the name finds no user; in both
    cases the store is as it was. *)
Theorem admin_reset_password_fields req st (sessionId : string)
    (session : Session.t) (actor : User.t) :
  truthy (cookies req !! "sessionId") = Some sessionId →
  getSession sessionId st = (st, Return (Some session)) →
  getUser (Session.userId session) st = (st, Return (Some actor)) →
  requireRole actor "admin" = true →
  let st' := (admin_reset_password req st).1 in
  let resp := (admin_reset_password req st).2 in
  let falsy := [None; Some JsonNull; Some (JsonBool false); Some (JsonNumber 0);
                Some (JsonString "")] in
  (status resp = 400%nat ↔
     body req !! "username" ∈ falsy ∨ body req !! "newPassword" ∈ falsy) ∧
  (status resp = 404%nat ↔
     (body req !! "username" ∉ falsy) ∧ (body req !! "newPassword" ∉ falsy) ∧
     ∃ username,
       body req !! "username" = Some username ∧
       getUserByUsername_json username st = (st, Return None)) ∧
  (status resp ∈ [400; 404]%nat → st' = st).
Proof.
  intros Hc Hs%mem_getSession Hu%mem_getUser Hr. cbv zeta.
  rewrite <- !truthy_field_None.
  rewrite (admin_reset_password_granted req st _ _ _ Hc Hs Hu Hr).
  destruct (truthy_field (body req !! "username")) as [username|] eqn:Hname.
  2: { simpl. split; [|split; [|done]].
       - split; [by left | done].
       - split; [done | by intros [? _]]. }
  apply truthy_field_Some in Hname as [Hname _].
  assert ((∃ username',
             body req !! "username" = Some username' ∧
             getUserByUsername_json username' st = (st, Return None))
          ↔ match username with
            | JsonString name => find (has_username name) (users st) = None
            | _ => True
            end) as ->.
  { rewrite Hname. split.
    - intros (username' & [= <-] & Hnone).
      rewrite mem_getUserByUsername_json in Hnone.
      destruct username; try done. by injection Hnone.
    - intros Hnone. exists username. split; [done|].
      rewrite mem_getUserByUsername_json.
      destruct username; try done. by rewrite Hnone. }
  clear Hname.
  destruct (truthy_field (body req !! "newPassword")) as [newPassword|].
  2: { destruct username; simpl; (split; [|split; [|done]]);
         first [ by split; [right|] | by split; [|intros (_ & ? & _)] ]. }
  assert (∀ (st' : Store) (resp : Response),
            status resp ∉ [400; 404]%nat →
            (status resp = 400%nat ↔ Some username = None ∨ Some newPassword = None) ∧
            (status resp = 404%nat ↔
               Some username ≠ None ∧ Some newPassword ≠ None ∧ False) ∧
            (status resp ∈ [400; 404]%nat → st' = st)) as Hother.
  { intros st' resp Hnot. split; [|split].
    - split; [|by intros [|]]. intros Hst. destruct Hnot. rewrite Hst. set_solver.
    - split; [|by intros (_ & _ & [])]. intros Hst. destruct Hnot. rewrite Hst.
      set_solver.
    - done. }
  assert (∀ P : Prop, P →
            (404%nat = 400%nat ↔ Some username = None ∨ Some newPassword = None) ∧
            (404%nat = 404%nat ↔
               Some username ≠ None ∧ Some newPassword ≠ None ∧ P) ∧
            (404%nat ∈ [400; 404]%nat → st = st)) as Hmissing.
  { intros P HP. split; [|split; [|done]].
    - split; [done | by intros [|]].
    - by split. }
  destruct username as [| | |name| |];
    try (by apply (Hmissing True)).
  destruct (find (has_username name) (users st)) as [target|].
  - assert ((Some target = None ↔ False)) as -> by done.
    destruct newPassword; apply Hother; simpl; set_solver.
  - by apply (Hmissing (None = None)).
Qed.
End ResetOnMemStorage.

Lemma admin_reset_password_fields_witness :
  let req := Demo.admin_request "session-0"
               {[ "username" := JsonString "alice"; "newPassword" := JsonNumber 0 ]} in
  let run := @admin_reset_password Demo.bcrypt Store MemStorage MemUntyped
               req Demo.store in
  status run.2 = 400%nat ∧ run.1 = Demo.store.
Proof.
  intros req run.
  destruct (@admin_reset_password_fields Demo.bcrypt req Demo.store "session-0"
              (Session.mk "session-0" 2) Demo.root
              ltac:(reflexivity) ltac:(reflexivity) ltac:(reflexivity)
              ltac:(reflexivity))
    as (H400 & _ & Hstore).
  assert (status run.2 = 400%nat) as Hst.
  { apply H400. right. do 3 apply list_elem_of_further. apply list_elem_of_here. }
  split; [exact Hst|]. apply Hstore. apply list_elem_of_here.
Defined.

(** A new password that is a number is refused by [bcrypt.hash], and the
    route answers 500 though the store is in order. *)
Example admin_reset_password_number :
  @admin_reset_password Demo.bcrypt Store MemStorage MemUntyped
    (Demo.admin_request "session-0"
       {[ "username" := JsonString "alice"; "newPassword" := JsonNumber 12345 ]})
    Demo.store
  = (Demo.store, res_status 500 (JMessage "Server error")).
Proof. reflexivity. Qed.

(** ** The logout route on the in-memory store *)

Section LogoutOnMemStorage.
Context `{!Bcrypt}.
Implicit Types (req : Request) (st : Store).

(** X17: a logout ends the session of its cookie and no other.  With a
    session cookie the logout route answers 200 and clears the cookie,
    whether the session was there or not; afterwards the cookie resolves
    to nobody and both admin routes answer it 401 "Invalid session", every
    other session resolves as before, the users are untouched, and a second
    logout changes nothing. *)
Theorem logout_ends_session req st (sessionId : string) :
  truthy (cookies req !! "sessionId") = Some sessionId →
  let done := {| logout_status := 200;
                 logout_json := JMessage "Logged out successfully";
                 clearCookie := "sessionId" |} in
  ∃ st',
    logout req st = (st', Return done) ∧
    users st' = users st ∧
    resolveActor sessionId st' = None ∧
    (∀ other, other ≠ sessionId → resolveActor other st' = resolveActor other st) ∧
    (∀ fields,
       let req' := {| cookies := cookies req; body := fields |} in
       admin_reset_password req' st'
       = (st', res_status 401 (JMessage "Invalid session")) ∧
       admin_accounts req' st'
       = (st', res_status 401 (JMessage "Invalid session"))) ∧
    logout req st' = (st', Return done).
Proof.
  intros Hc done. unfold logout, bind. rewrite Hc. simpl.
  eexists. split; [done|]. simpl. split; [done|].
  split. { unfold resolveActor. simpl. by rewrite lookup_delete_eq. }
  split. { intros other Hne. unfold resolveActor. simpl.
           by rewrite lookup_delete_ne. }
  split. { intros fields.
           apply (admin_no_session {| cookies := cookies req; body := fields |}
                    _ _ sessionId); [done|].
           apply mem_getSession. simpl. apply lookup_delete_eq. }
  by rewrite delete_delete_eq.
Qed.
End LogoutOnMemStorage.

Lemma logout_ends_session_witness :
  let req := Demo.admin_request "session-0" ∅ in
  ∃ st',
    @logout Store MemSessionEnd req Demo.store
    = (st', Return {| logout_status := 200;
                      logout_json := JMessage "Logged out successfully";
                      clearCookie := "sessionId" |}) ∧
    resolveActor "session-0" st' = None ∧
    resolveActor "session-2" st' = Some Demo.alice ∧
    @admin_accounts Store MemStorage req st'
    = (st', res_status 401 (JMessage "Invalid session")).
Proof.
  intros req.
  destruct (@logout_ends_session Demo.bcrypt req Demo.store "session-0" eq_refl)
    as (st' & Hrun & _ & Hgone & Hother & Hadmin & _).
  exists st'. split; [exact Hrun|]. split; [exact Hgone|].
  split.
  - rewrite (Hother "session-2"); [reflexivity | discriminate].
  - exact (proj2 (Hadmin ∅)).
Defined.

(** Without a session cookie the logout route leaves every storage alone. *)
Example logout_without_cookie :
  @logout Store MemSessionEnd {| cookies := ∅; body := ∅ |} Demo.store
  = (Demo.store, Return {| logout_status := 200;
                           logout_json := JMessage "Logged out successfully";
                           clearCookie := "sessionId" |}).
Proof. reflexivity. Qed.

(** ** The register route at the registration desk *)

Lemma register_user_sanitized_witness :
  let req := DemoRegister.request "dave" "sesame" "sesame" in
  let run := @register DemoRegister.schema Store DemoRegister.registration
               req Demo.store in
  let safeUser :=
    omit_password (User.object (User.mk 4 "dave" "hash:sesame" "staff" 0 None)) in
  ∃ userData user,
    @registerSchema_parse DemoRegister.schema (body req) = inr userData ∧
    @registerUser Store DemoRegister.registration
      (delete "confirmPassword" userData) Demo.store = (run.1, Return user) ∧
    201%nat = 201%nat ∧
    safeUser !! "password" = None ∧
    ∀ field, field ≠ "password" → safeUser !! field = User.object user !! field.
Proof.
  intros req run safeUser.
  apply (@register_user_sanitized DemoRegister.schema Store DemoRegister.registration
           req Demo.store run.1 safeUser 201).
  reflexivity.
Defined.

Lemma register_ignores_confirmPassword_witness :
  let data1 : gmap string JsonValue :=
    {[ "username" := JsonString "dave"; "password" := JsonString "sesame"; "confirmPassword" := JsonString "sesame" ]} in
  let data2 : gmap string JsonValue :=
    {[ "username" := JsonString "dave"; "password" := JsonString "sesame" ]} in
  let lenient : RegisterSchema := {| registerSchema_parse b := inr b |} in
  @register lenient Store DemoRegister.registration
    {| cookies := ∅; body := data1 |} Demo.store
  = @register lenient Store DemoRegister.registration
      {| cookies := ∅; body := data2 |} Demo.store.
Proof.
  intros data1 data2 lenient.
  apply (@register_ignores_confirmPassword lenient Store DemoRegister.registration
           {| cookies := ∅; body := data1 |} {| cookies := ∅; body := data2 |}
           Demo.store data1 data2 eq_refl eq_refl).
  intros field Hfield. subst data1 data2.
  destruct (decide (field = "username")) as [->|Husername]; [reflexivity|].
  destruct (decide (field = "password")) as [->|Hpassword]; [reflexivity|].
  rewrite !lookup_insert_ne by done.
  rewrite lookup_singleton_ne by done.
  by rewrite lookup_singleton_ne.
Defined.

(** A user name that is taken is answered 409, a new one 201, passwords
    that do not agree 400 with the failure listed. *)
Example register_at_the_desk :
  (@register DemoRegister.schema Store DemoRegister.registration
     (DemoRegister.request "alice" "sesame" "sesame") Demo.store).2
  = {| register_status := 409; register_json := RMessage "Username already exists" |} ∧
  register_status
    (@register DemoRegister.schema Store DemoRegister.registration
       (DemoRegister.request "dave" "sesame" "sesame") Demo.store).2 = 201%nat ∧
  (@register DemoRegister.schema Store DemoRegister.registration
     (DemoRegister.request "dave" "sesame" "sesam") Demo.store).2
  = {| register_status := 400;
       register_json := RErrors "Invalid request data" ["Passwords do not match"] |}.
Proof. by repeat split. Qed.

(** ** The front server *)

Lemma startsWith_app (s prefix : units) :
  startsWith s prefix = true ↔ ∃ rest, s = prefix ++ rest.
Proof.
  revert s. induction prefix as [|p prefix IH]; intros s; simpl.
  { split; [intros _; by exists s | done]. }
  destruct s as [|c s].
  { split; [done | by intros [rest ?]]. }
  rewrite andb_true_iff, N.eqb_eq, IH. split.
  - intros [-> [rest ->]]. by exists rest.
  - intros [rest [= -> ->]]. split; [done | by exists rest].
Qed.

Section LoggingFacts.
Context {J : Type} (json_truthy : J → bool) (JSON_stringify : J → option units).

(** X18: the length of a log line does not grow with the body of the
    response.  A line is logged exactly for the paths that begin with
    "/api"; it begins with the method, the path, the status and the
    duration, and what follows is at most 86 units long: the separator and
    a payload of at most 82 units, since a payload of more than 80 units is
    cut to 79 and the three units of the ending are added. *)
Theorem logLine_bounded (method path : units) (statusCode start finish : Z)
    (capturedJsonResponse : option J) :
  let head := method ++ lit " " ++ path ++ lit " " ++ decimal statusCode
              ++ lit " in " ++ decimal (finish - start) ++ lit "ms" in
  match logLine json_truthy JSON_stringify method path statusCode start finish
          capturedJsonResponse with
  | None => ∀ rest, path ≠ lit "/api" ++ rest
  | Some line =>
    (∃ rest, path = lit "/api" ++ rest) ∧
    ∃ tail, line = head ++ tail ∧ (length tail ≤ 86)%nat
  end.
Proof.
  intros head. unfold logLine. fold head.
  destruct (startsWith path (lit "/api")) eqn:Hpath.
  2: { intros rest Hrest.
       assert (startsWith path (lit "/api") = true) as Habs
         by (apply startsWith_app; by exists rest).
       congruence. }
  split; [by apply startsWith_app|].
  destruct capturedJsonResponse as [bodyJson|];
    [|exists []; split; [by rewrite app_nil_r | simpl; lia]].
  destruct (json_truthy bodyJson);
    [|exists []; split; [by rewrite app_nil_r | simpl; lia]].
  destruct (JSON_stringify bodyJson) as [jsonStr|]; [|eexists; split; [done|simpl; lia]].
  eexists. split; [done|].
  rewrite length_app. change (length (lit " :: ")) with 4%nat.
  destruct (Nat.ltb_spec 80 (length jsonStr)).
  - rewrite length_app, length_take. change (length ellipsis) with 3%nat. lia.
  - lia.
Qed.

(** X19: cutting a payload can make it longer.  A payload of up to 80
    units is logged as it is; one of more than 80 units is logged as 82
    units, its first 79 and the ending, so that a payload of 81 units is
    logged one unit longer than it was. *)
Theorem logLine_payload (method path : units) (statusCode start finish : Z)
    (bodyJson : J) (jsonStr : units) :
  startsWith path (lit "/api") = true →
  json_truthy bodyJson = true →
  JSON_stringify bodyJson = Some jsonStr →
  ∃ head payload,
    logLine json_truthy JSON_stringify method path statusCode start finish
      (Some bodyJson) = Some (head ++ lit " :: " ++ payload) ∧
    ((length jsonStr ≤ 80)%nat → payload = jsonStr) ∧
    ((80 < length jsonStr)%nat →
       length payload = 82%nat ∧ take 79 payload = take 79 jsonStr) ∧
    ((length jsonStr = 81)%nat → (length jsonStr < length payload)%nat).
Proof.
  intros Hpath Htruthy Hjson. unfold logLine. rewrite Hpath, Htruthy, Hjson.
  exists (method ++ lit " " ++ path ++ lit " " ++ decimal statusCode
          ++ lit " in " ++ decimal (finish - start) ++ lit "ms"),
         (if (80 <? length jsonStr)%nat then take 79 jsonStr ++ ellipsis else jsonStr).
  split; [reflexivity|].
  destruct (Nat.ltb_spec 80 (length jsonStr)) as [Hlong|Hshort].
  - assert (length (take 79 jsonStr ++ ellipsis) = 82%nat) as Hlen.
    { rewrite length_app, length_take. change (length ellipsis) with 3%nat. lia. }
    split; [lia|]. split; [|lia]. intros _. split; [done|].
    rewrite take_app_le by (rewrite length_take; lia).
    rewrite take_take. by rewrite Nat.min_id.
  - split; [done|]. split; lia.
Qed.
End LoggingFacts.

Lemma logLine_payload_witness :
  let stringify (n : nat) : option units := Some (replicate n 120%N) in
  ∃ head payload,
    logLine (λ _, true) stringify (lit "GET") (lit "/api/products") 200 1000 1012
      (Some 81%nat) = Some (head ++ lit " :: " ++ payload) ∧
    length payload = 82%nat.
Proof.
  intros stringify.
  destruct (logLine_payload (λ _ : nat, true) stringify (lit "GET") (lit "/api/products")
              200 1000 1012 81%nat (replicate 81 120%N) eq_refl eq_refl eq_refl)
    as (head & payload & Hline & _ & Hlong & _).
  exists head, payload. split; [exact Hline|].
  apply Hlong. rewrite length_replicate. lia.
Defined.

Lemma truthy_number_Some (o : option Z) (s : Z) :
  truthy_number o = Some s ↔ o = Some s ∧ s ≠ 0.
Proof.
  destruct o as [z|]; [|split; [done | by intros [? _]]].
  destruct (decide (z = 0)) as [->|Hz].
  - simpl. split; [done | by intros [[= <-] ?]].
  - assert (truthy_number (Some z) = Some z) as -> by by destruct z.
    split; [by intros [= <-] | by intros [-> _]].
Qed.

Lemma truthy_number_None (o : option Z) :
  truthy_number o = None ↔ o ∈ [None; Some 0].
Proof.
  destruct o as [z|].
  - destruct (decide (z = 0)) as [->|Hz].
    + split; [intros _; apply list_elem_of_further, list_elem_of_here | done].
    + assert (truthy_number (Some z) = Some z) as -> by by destruct z.
      split; [done|]. intros H.
      apply elem_of_cons in H as [?|H]; [done|].
      apply elem_of_cons in H as [[= ?]|H]; [done|].
      by apply not_elem_of_nil in H.
  - split; [intros _; apply list_elem_of_here | done].
Qed.

(** X20: the answer of the global error handler.  Its status is never 0
    and its message never empty; the status is that of [err.status] when
    that is a number other than 0, else that of [err.statusCode] when that
    is a number other than 0, else 500. *)
Theorem error_handler_answers (err : ServerError) :
  let resp := error_handler err in
  error_status resp ≠ 0 ∧
  error_message resp ≠ "" ∧
  (∀ s, err_status err = Some s → s ≠ 0 → error_status resp = s) ∧
  (∀ s, err_status err ∈ [None; Some 0] → err_statusCode err = Some s → s ≠ 0 →
        error_status resp = s) ∧
  (err_status err ∈ [None; Some 0] → err_statusCode err ∈ [None; Some 0] →
   error_status resp = 500) ∧
  (err_message err ∈ [None; Some ""] → error_message resp = "Internal Server Error").
Proof.
  unfold error_handler. cbn [error_status error_message].
  split; [|split; [|split; [|split; [|split]]]].
  - destruct (truthy_number (err_status err)) as [s|] eqn:Hs.
    { by apply truthy_number_Some in Hs as [_ ?]. }
    destruct (truthy_number (err_statusCode err)) as [s|] eqn:Hc; [|done].
    by apply truthy_number_Some in Hc as [_ ?].
  - destruct (truthy (err_message err)) as [m|] eqn:Hm; [|done].
    by apply truthy_Some in Hm as [_ ?].
  - intros s Hs Hne.
    by rewrite (proj2 (truthy_number_Some _ s) (conj Hs Hne)).
  - intros s Hs%truthy_number_None Hc Hne. rewrite Hs.
    by rewrite (proj2 (truthy_number_Some _ s) (conj Hc Hne)).
  - intros Hs%truthy_number_None Hc%truthy_number_None. by rewrite Hs, Hc.
  - intros Hm. assert (truthy (err_message err) = None) as ->; [|done].
    apply truthy_None.
    apply elem_of_cons in Hm as [?|Hm]; [by left|].
    apply elem_of_cons in Hm as [?|Hm]; [by right|].
    by apply not_elem_of_nil in Hm.
Qed.

Section FrontendFacts.
Context {App : Type} (setupVite serveStatic : Eff App unit).

Lemma setupFrontend_ready (NODE_ENV : option string) (app : App) :
  setupFrontend setupVite serveStatic NODE_ENV (true, app) = ((true, app), Return ()).
Proof. done. Qed.

Lemma setupFrontend_returns (NODE_ENV : option string) (s s' : bool * App) :
  setupFrontend setupVite serveStatic NODE_ENV s = (s', Return ()) → s'.1 = true.
Proof.
  destruct s as [[] app]; [by intros [= <-]|]. unfold setupFrontend.
  by destruct (_ app) as [app' [[]|e]]; intros [= <-].
Qed.

Lemma setups_ready (envs : list (option string)) (app : App) :
  setups setupVite serveStatic envs (true, app) = ((true, app), Return ()).
Proof. induction envs as [|env envs IH]; [done|]. simpl. exact IH. Qed.

(** X21: the front end is set up once.  When calls of [setupFrontend] one
    after the other have all returned, the flag is set, and any further
    calls, in any environment, return at once and leave the flag and the
    application as they are: the set-up that succeeded is never run
    again. *)
Theorem setupFrontend_once (envs more : list (option string)) (s s' : bool * App) :
  envs ≠ [] →
  setups setupVite serveStatic envs s = (s', Return ()) →
  s'.1 = true ∧
  setups setupVite serveStatic (envs ++ more) s = (s', Return ()).
Proof.
  revert s. induction envs as [|env envs IH]; intros s Hne Hrun; [done|].
  simpl in *.
  destruct (setupFrontend setupVite serveStatic env s) as [s1 [[]|e]] eqn:Hfirst;
    [|done].
  destruct envs as [|env' envs].
  - simpl in Hrun. injection Hrun as <-.
    pose proof (setupFrontend_returns env s s1 Hfirst) as Hready.
    split; [done|]. destruct s1 as [ready app]. simpl in Hready. subst ready.
    apply setups_ready.
  - by apply IH.
Qed.
End FrontendFacts.

Lemma setupFrontend_once_witness :
  let setupVite : Eff nat unit := λ runs, (S runs, Return ()) in
  let serveStatic : Eff nat unit := λ runs, (runs, Throw (StoreError "no build")) in
  let envs := [Some "development"] in
  let more := [Some "production"; None; Some "development"] in
  (true, 1%nat).1 = true ∧
  setups setupVite serveStatic (envs ++ more) (false, 0%nat) = ((true, 1%nat), Return ()).
Proof.
  intros setupVite serveStatic envs more.
  apply (setupFrontend_once setupVite serveStatic envs more (false, 0%nat) (true, 1%nat));
    [discriminate | reflexivity].
Defined.

(** ** The client on the answers of the login route *)

Section ClientOnServer.
Context `{!Bcrypt} `{!Schema} {St : Type} `{!Storage St}.

(** X22: what the login of the client makes of the answer of the server.
    Whatever the storage does, the mutation returns exactly on an answer
    200, with a user that has no [password] field; on every other answer
    it throws an error whose message is the message the server sent, one
    of its four, and never the fallback "Login failed". *)
Theorem client_login_on_server (env : Env) (req : Request) (st : St) :
  let res := (login env req st).2 in
  match loginMutationFn res with
  | inr data =>
    status res = 200%nat ∧
    ∃ user, data_user data = Some user ∧ user !! "password" = None
  | inl message =>
    status res ≠ 200%nat ∧
    data_message (json res) = Some message ∧
    message ∈ ["Invalid request data"; "Invalid credentials";
               "Account temporarily locked. Try again later.";
               "Too many failed attempts. Account locked for 5 minutes."]
  end.
Proof.
  unfold login, try_catch, login_try, bind.
  destruct (loginSchema_parse (body req)) as [e|[username password]]; simpl.
  { split; [done|]. split; [done | set_solver]. }
  destruct (getUserByUsername username st) as [st1 [[user|]|e]]; simpl;
    [|split; [done|]; split; [done | set_solver]..].
  destruct (active_cooldown env user); simpl;
    [split; [done|]; split; [done | set_solver]|].
  destruct (bcrypt_compare password (User.password user)); simpl.
  - destruct (resetLoginAttempts username st1) as [st2 [[]|e]]; simpl;
      [|split; [done|]; split; [done | set_solver]].
    destruct (createSession (User.id user) st2) as [st3 [session|e]]; simpl;
      [|split; [done|]; split; [done | set_solver]].
    split; [done|]. eexists. split; [done|]. apply lookup_delete_eq.
  - destruct (incrementLoginAttempts username st1) as [st2 [[]|e]]; simpl;
      [|split; [done|]; split; [done | set_solver]].
    destruct (or_zero (User.loginAttempts user)) as [|[|n]]; simpl;
      [split; [done|]; split; [done | set_solver]..|].
    destruct (setCooldown username _ st2) as [st3 [[]|e]]; simpl;
      (split; [done|]); (split; [done | set_solver]).
Qed.
End ClientOnServer.

(** ** Logins that fail *)

Section FailedLogins.
Context `{!Bcrypt} `{!Schema}.

(** X23: a login that is not answered 200 opens no session and lowers no
    counter.  On the in-memory store, after such a login the sessions are
    as they were, and every user is still found under its name with a
    counter at least as high and the same password hash. *)
Theorem failed_login_effect (env : Env) (req : Request) (st : Store) :
  let st' := (login env req st).1 in
  status (login env req st).2 ≠ 200%nat →
  sessions st' = sessions st ∧
  ∀ name user,
    getUserByUsername name st = (st, Return (Some user)) →
    ∃ user',
      getUserByUsername name st' = (st', Return (Some user')) ∧
      (User.loginAttempts user ≤ User.loginAttempts user')%nat ∧
      User.password user' = User.password user.
Proof.
  intros st' Hstatus. subst st'.
  assert (∀ (name username : string) (f : User.t → User.t) user,
            (∀ u, User.username (f u) = User.username u) →
            (User.loginAttempts user ≤ User.loginAttempts (f user))%nat →
            User.password (f user) = User.password user →
            find (has_username name) (users st) = Some user →
            ∃ user',
              find (has_username name) (users (update_user username f st)) = Some user' ∧
              (User.loginAttempts user ≤ User.loginAttempts user')%nat ∧
              User.password user' = User.password user) as Hupdate.
  { intros name username f user Hf Hn Hp Hfind.
    unfold update_user. cbn [users].
    rewrite find_map_preserving, Hfind.
    - simpl. eexists. split; [done|]. by destruct (has_username username user).
    - intros u. unfold has_username.
      by destruct (User.username u =? username)%string; rewrite ?Hf. }
  destruct (loginSchema_parse (body req)) as [e|[username password]] eqn:Hparse.
  { rewrite (login_malformed env req st e Hparse). split; [done|].
    intros name user Hget. by exists user. }
  destruct (find (has_username username) (users st)) as [user|] eqn:Hfind; last first.
  { apply mem_getUserByUsername in Hfind.
    rewrite (login_unknown env req st st _ _ Hparse Hfind). split; [done|].
    intros name user Hget. by exists user. }
  destruct (active_cooldown env user) as [d|] eqn:Hcool.
  { apply mem_getUserByUsername in Hfind.
    rewrite (login_cooling env req st st _ _ _ _ Hparse Hfind Hcool). split; [done|].
    intros name user' Hget. by exists user'. }
  destruct (bcrypt_compare password (User.password user)) eqn:Hcmp.
  { exfalso. apply Hstatus.
    by rewrite (login_valid env req st _ _ _ Hparse Hfind Hcool Hcmp). }
  rewrite (login_invalid env req st _ _ _ Hparse Hfind Hcool Hcmp). cbv zeta.
  destruct (2 <=? User.loginAttempts user)%nat; (split; [done|]);
    intros name other Hget%mem_getUserByUsername; cbn [fst].
  - destruct (Hupdate name username
                (λ u, with_loginAttempts (S (User.loginAttempts u)) u) other)
      as (other1 & Hget1 & Hn1 & Hp1); [done | simpl; lia | done | done |].
    set (st1 := update_user username
                  (λ u, with_loginAttempts (S (User.loginAttempts u)) u) st) in *.
    exists (if has_username username other1
            then with_cooldownUntil (Some (Date_now_lock env + 300000)) other1
            else other1).
    split.
    + apply mem_getUserByUsername. unfold update_user at 1. cbn [users].
      rewrite find_map_preserving, Hget1; [done|].
      intros u. unfold has_username. by destruct (User.username u =? username)%string.
    + destruct (has_username username other1); simpl; split; (lia || congruence).
  - destruct (Hupdate name username
                (λ u, with_loginAttempts (S (User.loginAttempts u)) u) other)
      as (other1 & Hget1 & Hn1 & Hp1); [done | simpl; lia | done | done |].
    exists other1. by rewrite mem_getUserByUsername.
Qed.
End FailedLogins.

Lemma failed_login_effect_witness :
  let run := @login Demo.bcrypt Demo.schema Store MemStorage (Demo.at_time 1000)
               (Demo.login_request "alice" "guess") Demo.store in
  sessions run.1 = sessions Demo.store ∧
  ∀ name user,
    getUserByUsername name Demo.store = (Demo.store, Return (Some user)) →
    ∃ user',
      getUserByUsername name run.1 = (run.1, Return (Some user')) ∧
      (User.loginAttempts user ≤ User.loginAttempts user')%nat ∧
      User.password user' = User.password user.
Proof.
  intros run.
  apply (@failed_login_effect Demo.bcrypt Demo.schema (Demo.at_time 1000)
           (Demo.login_request "alice" "guess") Demo.store).
  discriminate.
Defined.

(** ** The seconds that remain *)

Section RemainingSeconds.
Context `{!Bcrypt} `{!Schema} {St : Type} `{!Storage St}.

(** X9: the remaining seconds of a lockout.  On any storage, for a user
    whose cooldown ends after the clock, the login route answers 429 with a
    number of seconds that is at least 1 exactly when the second reading of
    the clock is still before the end, and at most 300 when that reading is
    no more than five minutes before the end. *)
Theorem remainingSeconds_bounds (env : Env) (req : Request) (st : St)
    (username password : string) (user : User.t) (until : Z) :
  loginSchema_parse (body req) = inr (username, password) →
  getUserByUsername username st = (st, Return (Some user)) →
  User.cooldownUntil user = Some until →
  new_Date env < until →
  ∃ remaining,
    (login env req st).2
    = res_status 429
        (JRemaining "Account temporarily locked. Try again later." remaining) ∧
    (1 ≤ remaining ↔ Date_now_remaining env < until) ∧
    (until - Date_now_remaining env ≤ 5 * 60 * 1000 → remaining ≤ 300).
Proof.
  intros Hparse Hget Huntil Hlt.
  assert (active_cooldown env user = Some until) as Hcool
    by by apply active_cooldown_Some.
  rewrite (login_cooling env req st st _ _ _ _ Hparse Hget Hcool).
  eexists. split; [done|].
  pose proof (ceil_div_spec (until - Date_now_remaining env) 1000) as Hceil.
  lia.
Qed.
End RemainingSeconds.

Lemma remainingSeconds_bounds_witness :
  ∃ remaining,
    (@login Demo.bcrypt Demo.schema Store MemStorage (Demo.at_time 899001)
       (Demo.login_request "carol" "xyzzy") Demo.store).2
    = res_status 429
        (JRemaining "Account temporarily locked. Try again later." remaining) ∧
    (1 ≤ remaining ↔ 899001 < 900000) ∧
    (900000 - 899001 ≤ 5 * 60 * 1000 → remaining ≤ 300).
Proof.
  apply (@remainingSeconds_bounds Demo.bcrypt Demo.schema Store MemStorage
           (Demo.at_time 899001) (Demo.login_request "carol" "xyzzy") Demo.store
           "carol" "xyzzy" Demo.carol 900000);
    reflexivity.
Defined.
